(** * A shallow embedding of the in-process diff detector of the API
    specification monitor (diff_detector.py, main.py, api_fetcher.py),
    with the Python string primitives it relies on. *)

From Stdlib Require Import String Ascii List Bool Arith Lia ZArith Permutation DecimalString.
Import ListNotations.
Open Scope string_scope.
Open Scope list_scope.
Set Warnings "-register-all".

(** ** Python string primitives *)
Module PyStr.

(** [needle in hay] *)
Fixpoint contains (needle hay : string) : bool :=
  prefix needle hay
  || match hay with
     | EmptyString => false
     | String _ h => contains needle h
     end.

(** [hay.startswith(p)] *)
Definition startswith (hay p : string) : bool := prefix p hay.

(** [s.split(sep)] for a non-empty [sep]: occurrences are cut from left to
    right without overlap; [skip] counts the characters of a separator
    still to be dropped after a cut. *)
Fixpoint split_go (sep s cur : string) (skip : nat) : list string :=
  match s with
  | EmptyString => [cur]
  | String c s' =>
      match skip with
      | S k => split_go sep s' cur k
      | O =>
          if prefix sep s
          then cur :: split_go sep s' EmptyString (String.length sep - 1)
          else split_go sep s' (cur ++ String c EmptyString) 0
      end
  end.

Definition split (s sep : string) : list string := split_go sep s EmptyString 0.

(** [s.strip(chars)]: drop leading and trailing characters of [chars]. *)
Fixpoint in_chars (c : ascii) (chars : string) : bool :=
  match chars with
  | EmptyString => false
  | String d r => Ascii.eqb c d || in_chars c r
  end.

Fixpoint lstrip (s chars : string) : string :=
  match s with
  | EmptyString => EmptyString
  | String c r => if in_chars c chars then lstrip r chars else s
  end.

Fixpoint rev_str (s : string) : string :=
  match s with
  | EmptyString => EmptyString
  | String c r => rev_str r ++ String c EmptyString
  end.

Definition strip (s chars : string) : string :=
  rev_str (lstrip (rev_str (lstrip s chars)) chars).

(** [s.upper()] on ASCII letters. *)
Definition upper_char (c : ascii) : ascii :=
  let n := nat_of_ascii c in
  if (Nat.leb 97 n) && (Nat.leb n 122) then ascii_of_nat (n - 32) else c.

Fixpoint upper (s : string) : string :=
  match s with
  | EmptyString => EmptyString
  | String c r => String (upper_char c) (upper r)
  end.

(** Truthiness of a Python string. *)
Definition truthy (s : string) : bool :=
  match s with EmptyString => false | _ => true end.

(** [xs[i]] on a list: [None] models an IndexError. *)
Definition nth_opt {A} (xs : list A) (i : nat) : option A := nth_error xs i.

(** [s.replace(old, new)] for a non-empty [old]: occurrences are replaced
    from left to right without overlap. *)
Fixpoint replace_go (old new s : string) (skip : nat) : string :=
  match s with
  | EmptyString => EmptyString
  | String c s' =>
      match skip with
      | S k => replace_go old new s' k
      | O =>
          if prefix old s
          then (new ++ replace_go old new s' (String.length old - 1))%string
          else String c (replace_go old new s' 0)
      end
  end.

Definition replace (s old new : string) : string := replace_go old new s 0.

(** [s[n:]] *)
Fixpoint drop (n : nat) (s : string) : string :=
  match n, s with
  | O, _ => s
  | S _, EmptyString => EmptyString
  | S k, String _ r => drop k r
  end.

(** The characters [str.isspace] holds for, among code points 0 to 255:
    tab to carriage return, the four separators 0x1c to 0x1f, space, NEL
    and no-break space. *)
Definition py_whitespace : string :=
  string_of_list_ascii (map ascii_of_nat [9; 10; 11; 12; 13; 28; 29; 30; 31; 32; 133; 160]).

(** [s.strip()] *)
Definition strip_ws (s : string) : string := strip s py_whitespace.

Definition newline : string := String (ascii_of_nat 10) EmptyString.

End PyStr.

(** ** JSON-shaped Python values: the specification documents *)
Module Json.

(** A document as [json.load] gives it: objects are Python dicts, kept as
    association lists in insertion order. *)
Inductive json : Type :=
| JNull
| JBool (b : bool)
| JNum (z : Z)
| JStr (s : string)
| JList (xs : list json)
| JObj (kvs : list (string * json)).

(** The exceptions the modelled code can raise. *)
Inductive exn : Type := AttributeError | TypeError | IndexError.

Inductive res (A : Type) : Type :=
| Ok (a : A)
| Raise (e : exn).
Arguments Ok {A} a.
Arguments Raise {A} e.

Definition bind {A B} (m : res A) (k : A -> res B) : res B :=
  match m with Ok a => k a | Raise e => Raise e end.

Notation "x <- m ;; k" := (bind m (fun x => k)) (at level 61, m at next level, right associativity).

Fixpoint assoc {A} (k : string) (kvs : list (string * A)) : option A :=
  match kvs with
  | [] => None
  | (k', v) :: r => if String.eqb k k' then Some v else assoc k r
  end.

Definition keys {A} (kvs : list (string * A)) : list string := map fst kvs.

Definition mem_key {A} (k : string) (kvs : list (string * A)) : bool :=
  existsb (String.eqb k) (keys kvs).

(** [bool(v)] *)
Definition truthy (v : json) : bool :=
  match v with
  | JNull => false
  | JBool b => b
  | JNum z => negb (Z.eqb z 0)
  | JStr s => PyStr.truthy s
  | JList xs => match xs with [] => false | _ => true end
  | JObj kvs => match kvs with [] => false | _ => true end
  end.

(** [v.get(k, d)]: only dicts have [get]. *)
Definition get (v : json) (k : string) (d : json) : res json :=
  match v with
  | JObj kvs => Ok (match assoc k kvs with Some x => x | None => d end)
  | _ => Raise AttributeError
  end.

(** [v.keys()] *)
Definition dict_keys (v : json) : res (list string) :=
  match v with
  | JObj kvs => Ok (keys kvs)
  | _ => Raise AttributeError
  end.

(** [s in v] for a string [s]. *)
Definition py_in_str (s : string) (v : json) : res bool :=
  match v with
  | JObj kvs => Ok (mem_key s kvs)
  | JList xs => Ok (existsb (fun x => match x with JStr t => String.eqb s t | _ => false end) xs)
  | JStr t => Ok (PyStr.contains s t)
  | _ => Raise TypeError
  end.

(** [v == False] and [v == True] ([0 == False] and [1 == True] hold). *)
Definition eq_false (v : json) : bool :=
  match v with JBool false => true | JNum z => Z.eqb z 0 | _ => false end.
Definition eq_true (v : json) : bool :=
  match v with JBool true => true | JNum z => Z.eqb z 1 | _ => false end.

(** Python dicts have pairwise distinct keys, at every level. *)
Fixpoint wf (v : json) : Prop :=
  match v with
  | JList xs => (fix wfl (xs : list json) : Prop :=
                   match xs with [] => True | x :: r => wf x /\ wfl r end) xs
  | JObj kvs => NoDup (keys kvs)
                /\ (fix wfo (kvs : list (string * json)) : Prop :=
                      match kvs with [] => True | (_, x) :: r => wf x /\ wfo r end) kvs
  | _ => True
  end.

(** [v.items()] *)
Definition dict_items (v : json) : res (list (string * json)) :=
  match v with
  | JObj kvs => Ok kvs
  | _ => Raise AttributeError
  end.

(** [len(v)] *)
Definition py_len (v : json) : res Z :=
  match v with
  | JObj kvs => Ok (Z.of_nat (length kvs))
  | JList xs => Ok (Z.of_nat (length xs))
  | JStr s => Ok (Z.of_nat (String.length s))
  | _ => Raise TypeError
  end.

(** [for x in v]: the elements of a list, the keys of a dict, the
    characters of a string. *)
Definition py_iter (v : json) : res (list json) :=
  match v with
  | JList xs => Ok xs
  | JObj kvs => Ok (map (fun kv => JStr (fst kv)) kvs)
  | JStr s => Ok (map (fun c => JStr (String c EmptyString)) (list_ascii_of_string s))
  | _ => Raise TypeError
  end.

(** [[f(x) for x in xs]] for an [f] that may raise. *)
Fixpoint res_map {A B} (f : A -> res B) (xs : list A) : res (list B) :=
  match xs with
  | [] => Ok []
  | x :: r => y <- f x ;; ys <- res_map f r ;; Ok (y :: ys)
  end.

End Json.

(** ** The structural differ: [DeepDiff(previous, current, ignore_order=True)]

    DeepDiff is the third-party library diff_detector.py delegates to; this
    is a model of the part of its behaviour the detector reads, on
    JSON-shaped values, in its default text view.  Locations are rendered
    as DeepDiff prints them: [root['paths']['/users']['get']] for dict keys
    and [root['security'][0]] for list positions. *)
Module DeepDiff.
Import Json.

Record diff : Type := mkDiff {
  dictionary_item_added : list string;
  dictionary_item_removed : list string;
  values_changed : list (string * json * json);   (** path, old_value, new_value *)
  type_changes : list (string * json * json);
  iterable_item_added : list (string * json);
  iterable_item_removed : list (string * json)
}.

Definition empty : diff := mkDiff [] [] [] [] [] [].

Definition dapp (a b : diff) : diff :=
  mkDiff (dictionary_item_added a ++ dictionary_item_added b)
         (dictionary_item_removed a ++ dictionary_item_removed b)
         (values_changed a ++ values_changed b)
         (type_changes a ++ type_changes b)
         (iterable_item_added a ++ iterable_item_added b)
         (iterable_item_removed a ++ iterable_item_removed b).

Definition is_empty (d : diff) : bool :=
  match d with mkDiff [] [] [] [] [] [] => true | _ => false end.

(** Printed form of a dict key: single quotes, or double quotes when the key
    holds a single quote (other escapes are not modelled). *)
Definition dq : string := String (ascii_of_nat 34) EmptyString.
Definition key_repr (k : string) : string :=
  if PyStr.contains "'" k then "[" ++ dq ++ k ++ dq ++ "]" else "['" ++ k ++ "']".

Definition index_repr (i : nat) : string :=
  "[" ++ NilEmpty.string_of_uint (Nat.to_uint i) ++ "]".

Definition at_key (path k : string) : string := (path ++ key_repr k)%string.
Definition at_index (path : string) (i : nat) : string := (path ++ index_repr i)%string.

(** Same type, for the scalar comparison ([type(t1) != type(t2)]). *)
Definition same_type (a b : json) : bool :=
  match a, b with
  | JNull, JNull | JBool _, JBool _ | JNum _, JNum _ | JStr _, JStr _
  | JList _, JList _ | JObj _, JObj _ => true
  | _, _ => false
  end.

(** Equality of DeepHash digests with [ignore_order=True] and
    [ignore_repetition=True]: dict keys unordered, list elements compared
    as sets. *)
Fixpoint hash_eq (a b : json) {struct a} : bool :=
  match a, b with
  | JNull, JNull => true
  | JBool x, JBool y => Bool.eqb x y
  | JNum x, JNum y => Z.eqb x y
  | JStr x, JStr y => String.eqb x y
  | JList xs, JList ys =>
      (fix all_in (xs : list json) : bool :=
         match xs with [] => true | x :: r => existsb (hash_eq x) ys && all_in r end) xs
      && forallb (fun y =>
           (fix any_eq (xs : list json) : bool :=
              match xs with [] => false | x :: r => hash_eq x y || any_eq r end) xs) ys
  | JObj kvs, JObj kvs' =>
      (fix all_k (kvs : list (string * json)) : bool :=
         match kvs with
         | [] => true
         | (k, v) :: r =>
             match assoc k kvs' with Some v' => hash_eq v v' | None => false end && all_k r
         end) kvs
      && forallb (fun kv => mem_key (fst kv) kvs) kvs'
  | _, _ => false
  end.

(** Unmatched elements of a list (by DeepHash), with their positions. *)
Fixpoint unmatched_in (ys : list json) (xs : list json) (i : nat) : list (nat * json) :=
  match xs with
  | [] => []
  | x :: r => (if existsb (fun y => hash_eq y x) ys then [] else [(i, x)])
              ++ unmatched_in ys r (S i)
  end.

(** The recursive comparison.  For lists, DeepDiff pairs removed with added
    elements when it judges them close (a distance heuristic) and then
    reports the changes inside the pair; [get_pairs] selects whether the
    unmatched elements are paired (in order) or reported as
    [iterable_item_removed] / [iterable_item_added].  Statements below hold
    for both choices. *)
Fixpoint ddiff (get_pairs : bool) (path : string) (t1 t2 : json) {struct t1} : diff :=
  match t1, t2 with
  | JObj k1, JObj k2 =>
      dapp
        (mkDiff (map (fun k => at_key path k)
                     (filter (fun k => negb (mem_key k k1)) (keys k2)))
                (map (fun k => at_key path k)
                     (filter (fun k => negb (mem_key k k2)) (keys k1)))
                [] [] [] [])
        ((fix common (k1 : list (string * json)) : diff :=
            match k1 with
            | [] => empty
            | (k, v) :: r =>
                match assoc k k2 with
                | Some v' => dapp (ddiff get_pairs (at_key path k) v v') (common r)
                | None => common r
                end
            end) k1)
  | JList l1, JList l2 =>
      let added := unmatched_in l1 l2 0 in
      (fix go (l1 : list json) (i : nat) (pending : list (nat * json)) : diff :=
         match l1 with
         | [] => mkDiff [] [] [] []
                   (map (fun p => (at_index path (fst p), snd p)) pending) []
         | x :: r =>
             if existsb (hash_eq x) l2 then go r (S i) pending
             else if get_pairs
             then match pending with
                  | (_, y) :: pend' => dapp (ddiff get_pairs (at_index path i) x y)
                                            (go r (S i) pend')
                  | [] => dapp (mkDiff [] [] [] [] [] [(at_index path i, x)])
                               (go r (S i) [])
                  end
             else dapp (mkDiff [] [] [] [] [] [(at_index path i, x)])
                       (go r (S i) pending)
         end) l1 0 added
  | _, _ =>
      if same_type t1 t2
      then (if hash_eq t1 t2 then empty else mkDiff [] [] [(path, t1, t2)] [] [] [])
      else mkDiff [] [] [] [(path, t1, t2)] [] []
  end.

(** [DeepDiff(t1, t2, ignore_order=True)] *)
Definition DeepDiff (get_pairs : bool) (t1 t2 : json) : diff := ddiff get_pairs "root" t1 t2.

End DeepDiff.

(** ** diff_detector.py: [APISpecDiffDetector] *)
Module Detector.
Import Json DeepDiff.

Definition http_methods : list string :=
  ["get"; "post"; "put"; "delete"; "options"; "head"; "patch"; "trace"].

(** One of [changes['added']], [changes['changed']], [changes['removed']]:
    a dict from category to the list of entries. *)
Definition cats := list (string * list string).

(** [d[k] = v] *)
Fixpoint setitem (k : string) (v : list string) (d : cats) : cats :=
  match d with
  | [] => [(k, v)]
  | (k', v') :: r => if String.eqb k k' then (k, v) :: r else (k', v') :: setitem k v r
  end.

Record changes : Type := mkChanges { added : cats; changed : cats; removed : cats }.

Definition set_added k v c := mkChanges (setitem k v (added c)) (changed c) (removed c).
Definition set_changed k v c := mkChanges (added c) (setitem k v (changed c)) (removed c).
Definition set_removed k v c := mkChanges (added c) (changed c) (setitem k v (removed c)).

(** [if xs: d[k] = xs] *)
Definition set_if (set : string -> list string -> changes -> changes)
    (k : string) (xs : list string) (c : changes) : changes :=
  match xs with [] => c | _ => set k xs c end.

(** Iterating over [diff['values_changed']] yields its keys. *)
Definition vc_keys (d : diff) : list string := map (fun e => fst (fst e)) (values_changed d).

Definition op_name (method path : string) : string := (PyStr.upper method ++ " " ++ path)%string.

Definition str_in (x : string) (xs : list string) : bool := existsb (String.eqb x) xs.

(** [list(set(xs))]: the order of a set is irrelevant to the report. *)
Fixpoint dedup (xs : list string) : list string :=
  match xs with
  | [] => []
  | x :: r => if str_in x r then dedup r else x :: dedup r
  end.

(** [_extract_paths(diff_set, key_prefix)]; the text-view locations are
    [str]s, so the [dict] branch is never taken. *)
Definition _extract_paths (diff_set : list string) (key_prefix : string) : list string :=
  let prefix := ("root['" ++ key_prefix ++ "']")%string in
  flat_map (fun item =>
              if PyStr.startswith item prefix
              then let parts := PyStr.split item "]" in
                   match nth_error parts 1 with
                   | Some p1 => if Nat.leb 3 (length parts) then [PyStr.strip p1 "['"] else []
                   | None => []
                   end
              else []) diff_set.

(** [part.split("['")[1]]; [None] is the IndexError. *)
Definition after_open (part : string) : option string := nth_error (PyStr.split part "['") 1.

(** [_extract_operation_info(item_str)]; [None] components are Python's
    [None]; an IndexError is caught and gives [(None, None)]. *)
Definition _extract_operation_info (item_str : string) : option string * option string :=
  let parts := PyStr.split item_str "']" in
  if Nat.leb 3 (length parts) then
    let p1 := nth 1 parts EmptyString in
    let p2 := nth 2 parts EmptyString in
    match (if PyStr.contains "['/" p1 then option_map Some (after_open p1) else Some None) with
    | None => (None, None)
    | Some path =>
        match (if PyStr.contains "['" p2 then option_map Some (after_open p2) else Some None) with
        | None => (None, None)
        | Some method => (path, method)
        end
    end
  else (None, None).

Definition truthy_opt (o : option string) : option string :=
  match o with Some s => if PyStr.truthy s then Some s else None | None => None end.

(** [_extract_operation_from_key(key_str)].  The loop keeps, for the path,
    the last part holding ['/ and, for the method, the first method whose
    quoted bracket form ['m'] occurs in a part; [None] when an IndexError
    is caught. *)
Definition method_in_part (part : string) : option string :=
  find (fun m => PyStr.contains ("['" ++ m ++ "']") part) http_methods.

Fixpoint scan_parts (parts : list string) (path method : option string)
    : option (option string * option string) :=
  match parts with
  | [] => Some (path, method)
  | part :: r =>
      if PyStr.contains "['/" part then
        match after_open part with
        | Some p => scan_parts r (Some p) method
        | None => None
        end
      else match method_in_part part with
           | Some m => scan_parts r path (Some m)
           | None => scan_parts r path method
           end
  end.

Definition _extract_operation_from_key (key_str : string) : option string :=
  if PyStr.contains "paths" key_str then
    match scan_parts (PyStr.split key_str "']") None None with
    | Some (path, method) =>
        match truthy_opt path, truthy_opt method with
        | Some p, Some m => Some (op_name m p)
        | _, _ => None
        end
    | None => None
    end
  else None.

(** [_extract_parameter_info(key_str)] *)
Definition _extract_parameter_info (key_str : string) : option string :=
  match _extract_operation_from_key key_str with
  | Some op =>
      if PyStr.contains "parameters" key_str
      then match nth_error (PyStr.split key_str "parameters") 1 with
           | Some _ => Some (op ++ " parameter")%string
           | None => None
           end
      else None
  | None => None
  end.

(** [_check_if_required_parameter(item_str, current_spec)] *)
Definition _check_if_required_parameter (item_str : string) (current_spec : json) : option string :=
  match _extract_operation_from_key item_str with
  | Some op => Some (op ++ " new parameter")%string
  | None => None
  end.

(** [_extract_components(diff_set, key_prefix)] *)
Definition _extract_components (diff_set : list string) (key_prefix : string) : list string :=
  let kp := PyStr.split key_prefix "." in
  let prefix := ("root['" ++ nth 0 kp EmptyString ++ "']['" ++ nth 1 kp EmptyString ++ "']")%string in
  flat_map (fun item =>
              if PyStr.contains prefix item
              then let parts := PyStr.split (nth 1 (PyStr.split item prefix) EmptyString) "'" in
                   if Nat.leb 3 (length parts) then [nth 1 parts EmptyString] else []
              else []) diff_set.

(** [_process_path_changes] *)
Definition _process_path_changes (d : diff) (c : changes) : changes :=
  let c := set_if set_added "paths" (_extract_paths (dictionary_item_added d) "paths") c in
  let c := set_if set_changed "paths" (_extract_paths (vc_keys d) "paths") c in
  set_if set_removed "paths" (_extract_paths (dictionary_item_removed d) "paths") c.

(** Both components of an [_extract_operation_info] result, when truthy. *)
Definition op_info (s : string) : option (string * string) :=
  let (p, m) := _extract_operation_info s in
  match truthy_opt p, truthy_opt m with
  | Some p, Some m => Some (p, m)
  | _, _ => None
  end.

(** The first loop of [_process_operation_changes]: accumulates
    [(added_operations, changed_operations, processed_paths)]. *)
Fixpoint ops_added_loop (items : list string) (previous_spec : json)
    (acc : list string * list string * list string) : res (list string * list string * list string) :=
  match items with
  | [] => Ok acc
  | item :: r =>
      match op_info item with
      | Some (path, method) =>
          let '(ao, co, pp) := acc in
          let operation := op_name method path in
          prev_paths <- get previous_spec "paths" (JObj []) ;;
          present <- py_in_str path prev_paths ;;
          ops_added_loop r previous_spec
            (if present then (ao, co ++ [operation], pp ++ [path])
             else (ao ++ [operation], co, pp ++ [path]))
      | None => ops_added_loop r previous_spec acc
      end
  end.

(** The [values_changed] loop of [_process_operation_changes]. *)
Fixpoint ops_changed_loop (keys : list string) (processed : list string) (co : list string)
    : list string :=
  match keys with
  | [] => co
  | key :: r =>
      match op_info key with
      | Some (path, method) =>
          let operation := op_name method path in
          ops_changed_loop r processed
            (if negb (str_in operation co) && str_in path processed then co ++ [operation] else co)
      | None => ops_changed_loop r processed co
      end
  end.

(** [_process_operation_changes] *)
Definition _process_operation_changes (d : diff) (c : changes) (previous_spec : json)
    : res changes :=
  acc <- ops_added_loop (dictionary_item_added d) previous_spec ([], [], []) ;;
  let '(ao, co, pp) := acc in
  let ro := flat_map (fun item => match op_info item with
                                  | Some (path, method) => [op_name method path]
                                  | None => [] end) (dictionary_item_removed d) in
  let co := ops_changed_loop (vc_keys d) pp co in
  Ok (set_if set_changed "operations" co
        (set_if set_removed "operations" ro
           (set_if set_added "operations" ao c))).

(** [_process_parameter_changes] *)
Definition _process_parameter_changes (d : diff) (c : changes) (current_spec : json) : changes :=
  let flips := flat_map (fun e =>
       let '(key, old_value, new_value) := e in
       if PyStr.contains "required" key && PyStr.contains "parameters" key then
         if eq_false old_value && eq_true new_value then
           match _extract_parameter_info key with Some i => [(true, i)] | None => [] end
         else if eq_true old_value && eq_false new_value then
           match _extract_parameter_info key with Some i => [(false, i)] | None => [] end
         else []
       else []) (values_changed d) in
  let added_req := map snd (filter fst flips) in
  let removed_req := map snd (filter (fun f => negb (fst f)) flips) in
  let new_req := flat_map (fun item =>
       if PyStr.contains "parameters" item then
         match _check_if_required_parameter item current_spec with Some i => [i] | None => [] end
       else []) (dictionary_item_added d) in
  set_if set_removed "required_parameters" removed_req
    (set_if set_added "required_parameters" (added_req ++ new_req) c).

(** [_process_request_response_changes] *)
Definition _process_request_response_changes (d : diff) (c : changes) : changes :=
  let from_key (cond : bool) (key : string) :=
    if cond then match _extract_operation_from_key key with Some o => [o] | None => [] end
    else [] in
  let schema_or_content k := PyStr.contains "schema" k || PyStr.contains "content" k in
  let req1 := flat_map (fun k => from_key (PyStr.contains "requestBody" k && schema_or_content k) k) (vc_keys d) in
  let resp1 := flat_map (fun k => from_key (PyStr.contains "responses" k && schema_or_content k) k) (vc_keys d) in
  let tagged := flat_map (fun item =>
       if PyStr.contains "requestBody" item && PyStr.contains "content" item then
         match _extract_operation_from_key item with
         | Some o => [(true, o ++ " (new content type)")%string] | None => [] end
       else if PyStr.contains "responses" item && PyStr.contains "content" item then
         match _extract_operation_from_key item with
         | Some o => [(false, o ++ " (new content type)")%string] | None => [] end
       else []) (dictionary_item_added d) in
  let req := req1 ++ map snd (filter fst tagged) in
  let resp := resp1 ++ map snd (filter (fun t => negb (fst t)) tagged) in
  set_if set_changed "response_formats" (dedup resp)
    (set_if set_changed "request_formats" (dedup req) c).

(** [_process_security_changes] *)
Definition _process_security_changes (d : diff) (c : changes) : changes :=
  let glob := flat_map (fun k => if String.eqb k "root['security']"
                                 then ["Global security requirements changed"] else []) (vc_keys d) in
  let opsec := flat_map (fun k =>
       if PyStr.contains "security" k && PyStr.contains "paths" k then
         match _extract_operation_from_key k with
         | Some o => [(o ++ " security changed")%string] | None => [] end
       else []) (vc_keys d) in
  let sa := _extract_components (dictionary_item_added d) "components.securitySchemes" in
  let sr := _extract_components (dictionary_item_removed d) "components.securitySchemes" in
  set_if set_removed "security_schemes" sr
    (set_if set_added "security_schemes" sa
       (set_if set_changed "operation_security" opsec
          (set_if set_changed "global_security" glob c))).

(** [_process_component_changes] *)
Definition components_types : list string :=
  ["schemas"; "parameters"; "responses"; "requestBodies"; "headers"].

Definition _process_component_changes (d : diff) (c : changes) : changes :=
  fold_left (fun c comp_type =>
      let comp_path := ("components." ++ comp_type)%string in
      let c := set_if set_added comp_type (_extract_components (dictionary_item_added d) comp_path) c in
      let c := set_if set_changed comp_type (_extract_components (vc_keys d) comp_path) c in
      set_if set_removed comp_type (_extract_components (dictionary_item_removed d) comp_path) c)
    components_types c.

(** [_categorize_changes(diff, previous_spec, current_spec)] *)
Definition _categorize_changes (d : diff) (previous_spec current_spec : json) : res changes :=
  let c := _process_path_changes d (mkChanges [] [] []) in
  c <- _process_operation_changes d c previous_spec ;;
  let c := _process_parameter_changes d c current_spec in
  let c := _process_request_response_changes d c in
  let c := _process_security_changes d c in
  Ok (_process_component_changes d c).

(** [any(changes.values())]: some of the three dicts is non-empty. *)
Definition any_values (c : changes) : bool :=
  match added c, changed c, removed c with
  | [], [], [] => false
  | _, _, _ => true
  end.

(** [detect_changes(current_spec, previous_spec)]; Python's [None] is
    [JNull] on input and [None] on output.  The [try] block catches every
    exception raised while diffing and categorising. *)
Definition detect_changes (get_pairs : bool) (current_spec previous_spec : json)
    : res (option changes) :=
  if negb (truthy current_spec) then Ok None
  else if negb (truthy previous_spec) then
    paths_v <- get current_spec "paths" (JObj []) ;;
    paths <- dict_keys paths_v ;;
    comps <- get current_spec "components" (JObj []) ;;
    schemes_v <- get comps "securitySchemes" (JObj []) ;;
    schemes <- dict_keys schemes_v ;;
    Ok (Some (mkChanges [("paths", paths); ("security_schemes", schemes)] [] []))
  else
    match _categorize_changes (DeepDiff get_pairs previous_spec current_spec)
            previous_spec current_spec with
    | Raise _ => Ok None
    | Ok changes => if any_values changes then Ok (Some changes) else Ok None
    end.

(** The report as the Python dict it is. *)
Definition cats_json (d : cats) : json :=
  JObj (map (fun kv => (fst kv, JList (map JStr (snd kv)))) d).

Definition report_json (c : changes) : json :=
  JObj [("added", cats_json (added c)); ("changed", cats_json (changed c));
        ("removed", cats_json (removed c))].

(** [_is_operation_change(item_str)] *)
Definition _is_operation_change (item_str : string) : bool :=
  if negb (PyStr.contains "root['paths']" item_str) then false
  else existsb (fun m => PyStr.contains ("['" ++ m ++ "']") item_str) http_methods.

(** The inner loop of [_get_all_operations], over [self.http_methods]. *)
Fixpoint ops_of_path (path : string) (path_obj : json) (ms : list string) : res (list string) :=
  match ms with
  | [] => Ok []
  | m :: r =>
      b <- py_in_str m path_obj ;;
      rest <- ops_of_path path path_obj r ;;
      Ok (if b then op_name m path :: rest else rest)
  end.

Fixpoint all_ops (items : list (string * json)) : res (list string) :=
  match items with
  | [] => Ok []
  | (path, path_obj) :: r =>
      ops <- ops_of_path path path_obj http_methods ;;
      rest <- all_ops r ;;
      Ok (ops ++ rest)
  end.

(** [_get_all_operations(spec)] *)
Definition _get_all_operations (spec : json) : res (list string) :=
  paths <- get spec "paths" (JObj []) ;;
  items <- dict_items paths ;;
  all_ops items.

End Detector.

(** ** main.py and api_fetcher.py: one run of the check cycle *)
Module Monitor.
Import Json Detector.

(** The two snapshot files; [None] when a file does not exist. *)
Record store : Type := mkStore { current_file : option json; previous_file : option json }.

(** [utils.load_json_from_file] *)
Definition load_json_from_file (f : option json) : json :=
  match f with Some v => v | None => JNull end.

(** [get_stored_specs] *)
Definition get_stored_specs (st : store) : json * json :=
  (load_json_from_file (current_file st), load_json_from_file (previous_file st)).

(** [update_stored_specs(new_spec)]: the current snapshot moves to
    previous, the new one becomes current. *)
Definition update_stored_specs (new_spec : json) (st : store) : bool * store :=
  match new_spec with
  | JNull => (false, st)
  | _ =>
      let current_spec := load_json_from_file (current_file st) in
      let st1 := if truthy current_spec then mkStore (current_file st) (Some current_spec) else st in
      (true, mkStore (Some new_spec) (previous_file st1))
  end.

(** What [WebhookNotifier.send_notification] does with a report: returns
    [True], returns [False], or raises. *)
Inductive delivery : Type := Delivered | NotDelivered | DeliveryRaised (e : exn).

(** [diff_result.get('has_breaking_changes')], as the check cycle tests it. *)
Definition breaking_verdict (diff_result : json) : bool :=
  match get diff_result "has_breaking_changes" JNull with
  | Ok v => truthy v
  | Raise _ => false
  end.

(** [check_for_changes], given what [fetch_current_spec] returned
    ([JNull] for a failed fetch) and how the notifier answers. *)
Definition check_for_changes (get_pairs : bool) (notify : json -> delivery)
    (fetched : json) (st : store) : res store :=
  if negb (truthy fetched) then Ok st
  else
    let (stored_current, _) := get_stored_specs st in
    r <- detect_changes get_pairs fetched stored_current ;;
    match r with
    | None => Ok st
    | Some diff_result =>
        let _ := breaking_verdict (report_json diff_result) in
        match notify (report_json diff_result) with
        | Delivered => Ok (snd (update_stored_specs fetched st))
        | NotDelivered => Ok st
        | DeliveryRaised e => Raise e
        end
    end.

(** The snapshot files after a run: an exception escapes to the scheduler
    before any file is written. *)
Definition stored_after (get_pairs : bool) (notify : json -> delivery)
    (fetched : json) (st : store) : store :=
  match check_for_changes get_pairs notify fetched st with
  | Ok st' => st'
  | Raise _ => st
  end.

(** The initial run of [APISpecMonitor.start] ([initial_run=True]), given
    what [fetch_current_spec] returned; the scheduling that follows is not
    modelled. *)
Definition start_initial (fetched : json) (st : store) : store :=
  let (stored_current, _) := get_stored_specs st in
  if negb (truthy stored_current) then
    if truthy fetched then snd (update_stored_specs fetched st) else st
  else st.

End Monitor.

(** ** webhook_notifier.py: the payload of a notification *)
Module Notifier.
Import Json Detector.

Definition changelog_entry (ty text : string) : json :=
  JObj [("type", JStr ty); ("text", JStr text)].

(** The body of the loop of [_parse_changelog_lines], for one line. *)
Definition parse_line (raw : string) : list json :=
  let line := PyStr.strip_ws raw in
  if PyStr.truthy line then
    if PyStr.startswith line "###" then
      [changelog_entry "heading" (PyStr.strip_ws (PyStr.replace line "###" ""))]
    else if PyStr.startswith line "- " then
      [changelog_entry "item" (PyStr.strip_ws (PyStr.drop 2 line))]
    else if PyStr.startswith line "* " then
      [changelog_entry "item" (PyStr.strip_ws (PyStr.drop 2 line))]
    else [changelog_entry "text" line]
  else [].

(** [_parse_changelog_lines(changelog)]: only a string has [split]. *)
Definition _parse_changelog_lines (changelog : json) : res (list json) :=
  if negb (truthy changelog) then Ok []
  else match changelog with
       | JStr s => Ok (flat_map parse_line (PyStr.split s PyStr.newline))
       | _ => Raise AttributeError
       end.

(** The method list of [_extract_spec_info]. *)
Definition spec_info_methods : list string :=
  ["get"; "post"; "put"; "delete"; "patch"; "options"; "head"; "trace"].

(** [d[k] = v] on a dict of counters. *)
Fixpoint zset (k : string) (v : Z) (d : list (string * Z)) : list (string * Z) :=
  match d with
  | [] => [(k, v)]
  | (k', v') :: r => if String.eqb k k' then (k, v) :: r else (k', v') :: zset k v r
  end.

(** [d[k] = d.get(k, 0) + 1] *)
Definition zbump (k : string) (d : list (string * Z)) : list (string * Z) :=
  zset k ((match assoc k d with Some n => n | None => 0 end) + 1)%Z d.

(** The method loop for one path, with [operations_count] and
    [operations_by_method]. *)
Fixpoint count_methods (path_obj : json) (ms : list string) (cnt : Z) (by_m : list (string * Z))
    : res (Z * list (string * Z)) :=
  match ms with
  | [] => Ok (cnt, by_m)
  | m :: r =>
      b <- py_in_str m path_obj ;;
      if b then count_methods path_obj r (cnt + 1)%Z (zbump (PyStr.upper m) by_m)
      else count_methods path_obj r cnt by_m
  end.

Fixpoint count_paths (items : list (string * json)) (cnt : Z) (by_m : list (string * Z))
    : res (Z * list (string * Z)) :=
  match items with
  | [] => Ok (cnt, by_m)
  | (_, path_obj) :: r =>
      acc <- count_methods path_obj spec_info_methods cnt by_m ;;
      count_paths r (fst acc) (snd acc)
  end.

Definition spec_info_components : list string :=
  ["schemas"; "parameters"; "responses"; "requestBodies"; "headers"; "securitySchemes"].

Fixpoint component_counts (components : json) (types : list string) : res (list (string * json)) :=
  match types with
  | [] => Ok []
  | t :: r =>
      comp_data <- get components t (JObj []) ;;
      rest <- component_counts components r ;;
      Ok (match comp_data with
          | JObj kvs => (t, JNum (Z.of_nat (length kvs))) :: rest
          | _ => rest
          end)
  end.

(** [_extract_spec_info(spec)] *)
Definition _extract_spec_info (spec : json) : res json :=
  if negb (truthy spec) then Ok (JObj []) else
  spec_info <- get spec "info" (JObj []) ;;
  title <- get spec_info "title" (JStr "Unknown") ;;
  version <- get spec_info "version" (JStr "Unknown") ;;
  description <- get spec_info "description" (JStr "") ;;
  paths <- get spec "paths" (JObj []) ;;
  paths_count <- py_len paths ;;
  items <- dict_items paths ;;
  counts <- count_paths items 0%Z [] ;;
  components <- get spec "components" (JObj []) ;;
  component_info <- component_counts components spec_info_components ;;
  security_schemes <- get components "securitySchemes" (JObj []) ;;
  schemes <- (if truthy security_schemes then dict_keys security_schemes else Ok []) ;;
  servers <- get spec "servers" (JList []) ;;
  urls <- (if truthy servers
           then (xs <- py_iter servers ;; res_map (fun server => get server "url" (JStr "")) xs)
           else Ok []) ;;
  Ok (JObj [("title", title); ("version", version); ("description", description);
            ("paths_count", JNum paths_count);
            ("operations_count", JNum (fst counts));
            ("operations_by_method", JObj (map (fun kv => (fst kv, JNum (snd kv))) (snd counts)));
            ("components", JObj component_info);
            ("security_schemes", JList (map JStr schemes));
            ("servers", JList urls)]).

(** [_prepare_payload(diff_result)], given [datetime.now().isoformat()],
    [config.GITHUB_API_SPEC_URL] and the generated notification id; the
    [get]s the source repeats are evaluated once, they have no effect. *)
Definition _prepare_payload (timestamp spec_source notification_id : string) (diff_result : json)
    : res json :=
  summary <- get diff_result "summary" (JStr "API specification changes detected") ;;
  has_breaking <- get diff_result "has_breaking_changes" (JBool false) ;;
  breaking <- get diff_result "breaking_changes" (JList []) ;;
  count <- py_len breaking ;;
  changelog <- get diff_result "changelog" (JStr "") ;;
  lines <- _parse_changelog_lines changelog ;;
  current_spec <- get diff_result "current_spec" (JObj []) ;;
  info <- _extract_spec_info current_spec ;;
  Ok (JObj [("event_type", JStr "api_spec_change"); ("timestamp", JStr timestamp);
            ("source", JStr "github_api_spec_monitor");
            ("summary", summary); ("has_breaking_changes", has_breaking);
            ("breaking_changes", JObj [("count", JNum count); ("changes", breaking)]);
            ("changelog", JObj [("text", changelog); ("lines", JList lines)]);
            ("current_spec", JObj [("content", current_spec); ("info", info)]);
            ("metadata", JObj [("spec_source", JStr spec_source);
                               ("monitor_version", JStr "2.0.0");
                               ("diff_tool", JStr "oasdiff");
                               ("notification_id", JStr notification_id)])]).

End Notifier.

(** ** Concrete documents used by the examples below *)
Module Scenarios.
Import Json.

Definition obj := JObj.

(** A [GET /users] whose [limit] parameter has [required = b]. *)
Definition users_param (b : bool) : json :=
  obj [("paths", obj [("/users", obj [("get", obj [("parameters",
        JList [obj [("name", JStr "limit"); ("required", JBool b)]])])])])].

(** [/users] with [get] only, and with [get] and [post]. *)
Definition users_get : json := obj [("paths", obj [("/users", obj [("get", obj [])])])].
Definition users_get_post : json :=
  obj [("paths", obj [("/users", obj [("get", obj []); ("post", obj [])])])].

(** [users_get] plus a new path [/products] with [get]. *)
Definition users_products : json :=
  obj [("paths", obj [("/users", obj [("get", obj [])]); ("/products", obj [("get", obj [])])])].

(** [GET /users] with a summary and a description. *)
Definition users_doc (summary description : string) : json :=
  obj [("paths", obj [("/users", obj [("get", obj [("summary", JStr summary);
                                                   ("description", JStr description)])])])].

(** A document with a security requirement list and components. *)
Definition secured (reqs : list json) (order_flip : bool) : json :=
  let info := ("info", obj [("title", JStr "API"); ("version", JStr "1")]) in
  let comps := ("components", obj [("securitySchemes",
                  obj [("bearer", obj [("type", JStr "http")]); ("key", obj [("type", JStr "apiKey")])])]) in
  let paths := ("paths", obj [("/users", obj [("get", obj [("summary", JStr "list")])])]) in
  obj (if order_flip then [("security", JList reqs); comps; paths; info]
       else [info; paths; comps; ("security", JList reqs)]).

Definition req_bearer : json := obj [("bearer", JList [])].
Definition req_key : json := obj [("key", JList [])].

(** A previous document whose [paths] is not a container. *)
Definition odd_prev : json := obj [("x", obj [("/a", obj [])]); ("paths", JNum 3)].
Definition odd_cur : json := obj [("x", obj [("/a", obj [("get", JNum 1)])]); ("paths", JNum 3)].

(** [POST /users] whose request body has the content type [ct]. *)
Definition users_body (ct : string) : json :=
  obj [("paths", obj [("/users", obj [("post", obj [("requestBody", obj [("content",
        obj [(ct, obj [("schema", obj [("type", JStr "object")])])])])])])])].

End Scenarios.

(** ** Predicates used in the statements and proofs *)
Module Predicates.
Import Json Detector.

(** While splitting, no separator occurrence starts inside the current part. *)
Definition no_sep_from (sep cur s : string) : Prop :=
  forall a b, cur = (a ++ b)%string -> b <> EmptyString -> prefix sep (b ++ s) = false.

(** Two reports agree on the entries of category [k], in all three dicts. *)
Definition agree_on (k : string) (c c' : changes) : Prop :=
  assoc k (added c) = assoc k (added c') /\ assoc k (changed c) = assoc k (changed c')
  /\ assoc k (removed c) = assoc k (removed c').

(** Two documents equal up to the insertion order of every dict and the
    order of the elements of every list (in particular [security]
    requirement lists). *)
Inductive same_up_to_order : json -> json -> Prop :=
| suo_null : same_up_to_order JNull JNull
| suo_bool (b : bool) : same_up_to_order (JBool b) (JBool b)
| suo_num (z : Z) : same_up_to_order (JNum z) (JNum z)
| suo_str (s : string) : same_up_to_order (JStr s) (JStr s)
| suo_list (xs ys ys' : list json) :
    Forall2 same_up_to_order xs ys -> Permutation ys ys' ->
    same_up_to_order (JList xs) (JList ys')
| suo_obj (kvs kvs' kvs'' : list (string * json)) :
    Forall2 (fun a b => fst a = fst b /\ same_up_to_order (snd a) (snd b)) kvs kvs' ->
    Permutation kvs' kvs'' ->
    same_up_to_order (JObj kvs) (JObj kvs'').

(** Induction over documents, with the hypothesis for every element of a
    list and every value of a dict. *)
Section DeepInd.
Variable P : json -> Prop.
Hypothesis Hnull : P JNull.
Hypothesis Hbool : forall b, P (JBool b).
Hypothesis Hnum : forall z, P (JNum z).
Hypothesis Hstr : forall s, P (JStr s).
Hypothesis Hlist : forall xs, Forall P xs -> P (JList xs).
Hypothesis Hobj : forall kvs, Forall (fun kv => P (snd kv)) kvs -> P (JObj kvs).

Fixpoint json_deep_ind (j : json) : P j :=
  match j with
  | JNull => Hnull
  | JBool b => Hbool b
  | JNum z => Hnum z
  | JStr s => Hstr s
  | JList xs =>
      Hlist xs ((fix go (xs : list json) : Forall P xs :=
                   match xs with
                   | [] => Forall_nil P
                   | x :: r => Forall_cons x (json_deep_ind x) (go r)
                   end) xs)
  | JObj kvs =>
      Hobj kvs ((fix go (kvs : list (string * json)) : Forall (fun kv => P (snd kv)) kvs :=
                   match kvs with
                   | [] => Forall_nil _
                   | kv :: r => Forall_cons kv (json_deep_ind (snd kv)) (go r)
                   end) kvs)
  end.
End DeepInd.

(** The sum of the values of a dict of counters. *)
Definition zsum (d : list (string * Z)) : Z := fold_right Z.add 0%Z (map snd d).

(** The values for which [m in v] does not raise: dicts, lists and strings. *)
Definition container (v : json) : bool :=
  match v with JObj _ | JList _ | JStr _ => true | _ => false end.

(** The value of [m in v] for a container [v]. *)
Definition in_obj (v : json) (m : string) : bool :=
  match v with
  | JObj kvs => mem_key m kvs
  | JList xs => existsb (fun x => match x with JStr t => String.eqb m t | _ => false end) xs
  | JStr t => PyStr.contains m t
  | _ => false
  end.

End Predicates.

(** * Properties *)

(** ** Strings *)
Module PyStrFacts.
Import PyStr Predicates.

Lemma sapp_assoc (a b c : string) : ((a ++ b) ++ c = a ++ (b ++ c))%string.
Proof. induction a as [|x a IH]; simpl; [reflexivity | now rewrite IH]. Qed.

Lemma sapp_nil_r (a : string) : (a ++ "")%string = a.
Proof. induction a as [|x a IH]; simpl; [reflexivity | now rewrite IH]. Qed.

Lemma prefix_app (p b : string) : prefix p (p ++ b) = true.
Proof.
  induction p as [|x p IH]; simpl; [destruct b; reflexivity|].
  destruct (ascii_dec x x); [exact IH | contradiction].
Qed.

Lemma prefix_inv (p h : string) : prefix p h = true -> exists b, h = (p ++ b)%string.
Proof.
  revert h; induction p as [|x p IH]; intros h H; simpl.
  - now exists h.
  - destruct h as [|y h]; [discriminate|]. simpl in H.
    destruct (ascii_dec x y) as [->|]; [|discriminate].
    destruct (IH h H) as [b ->]. now exists b.
Qed.

Lemma contains_eq (n h : string) :
  contains n h = prefix n h || match h with EmptyString => false | String _ t => contains n t end.
Proof. destruct h; reflexivity. Qed.

Lemma contains_spec (n h : string) :
  contains n h = true <-> exists a b, h = (a ++ n ++ b)%string.
Proof.
  split.
  - induction h as [|c h IH]; intros H; rewrite contains_eq in H.
    + apply orb_true_iff in H as [H|H]; [|discriminate].
      destruct (prefix_inv _ _ H) as [b Hb]. exists "", b. exact Hb.
    + apply orb_true_iff in H as [H|H].
      * destruct (prefix_inv _ _ H) as [b Hb]. exists "", b. exact Hb.
      * destruct (IH H) as [a [b ->]]. exists (String c a), b. reflexivity.
  - intros [a [b ->]]. induction a as [|c a IH]; rewrite contains_eq.
    + cbn [append]. now rewrite prefix_app.
    + cbn [append]. rewrite IH. apply orb_true_r.
Qed.

Lemma contains_trans (x y z : string) :
  contains x y = true -> contains y z = true -> contains x z = true.
Proof.
  rewrite !contains_spec. intros [a [b ->]] [c [d ->]].
  exists (c ++ a)%string, (b ++ d)%string.
  now rewrite !sapp_assoc.
Qed.

(** A suffix of [cur ++ c] that is not empty ends with [c]. *)
Lemma snoc_split (cur a b : string) (c : ascii) :
  b <> EmptyString -> (cur ++ String c "")%string = (a ++ b)%string ->
  exists b0, b = (b0 ++ String c "")%string /\ cur = (a ++ b0)%string.
Proof.
  revert cur; induction a as [|x a IH]; intros cur Hb H; simpl in H.
  - exists cur. split; [symmetry; exact H | reflexivity].
  - destruct cur as [|y cur]; simpl in H.
    + injection H as _ H. destruct a, b; simpl in H; congruence.
    + injection H as -> H. destruct (IH cur Hb H) as [b0 [-> ->]].
      now exists b0.
Qed.

Lemma no_sep_part (sep cur s : string) :
  sep <> EmptyString -> no_sep_from sep cur s -> prefix sep s = true \/ s = EmptyString ->
  contains sep cur = false.
Proof.
  intros Hs Hinv Hend. destruct (contains sep cur) eqn:E; [|reflexivity].
  apply contains_spec in E as [a [b ->]].
  assert (Hp : prefix sep ((sep ++ b) ++ s) = true).
  { rewrite sapp_assoc. apply prefix_app. }
  rewrite (Hinv a (sep ++ b)%string eq_refl) in Hp; [discriminate|].
  destruct sep; [contradiction | discriminate].
Qed.

Lemma split_go_no_sep (sep s cur : string) (skip : nat) :
  sep <> EmptyString -> no_sep_from sep cur s -> (0 < skip -> cur = EmptyString) ->
  Forall (fun p => contains sep p = false) (split_go sep s cur skip).
Proof.
  intros Hs. revert cur skip.
  induction s as [|c s IH]; intros cur skip Hinv Hskip; cbn [split_go].
  - constructor; [|constructor]. apply (no_sep_part sep cur ""); auto.
  - assert (Hempty : forall s', no_sep_from sep "" s').
    { intros s' a b Hab Hb. destruct a, b; simpl in Hab; congruence. }
    destruct skip as [|k].
    + destruct (prefix sep (String c s)) eqn:Hp.
      * constructor.
        -- apply (no_sep_part sep cur (String c s)); auto.
        -- apply IH; auto.
      * apply IH; [|intros H; lia].
        intros a b Hab Hb.
        destruct (snoc_split cur a b c Hb Hab) as [b0 [-> Hcur]].
        destruct b0 as [|x b0].
        -- exact Hp.
        -- rewrite sapp_assoc. apply (Hinv a (String x b0)); [exact Hcur | discriminate].
    + rewrite (Hskip ltac:(lia)). apply IH; auto.
Qed.

(** No part of [s.split(sep)] holds [sep]. *)
Lemma split_no_sep (s sep : string) :
  sep <> EmptyString -> Forall (fun p => contains sep p = false) (split s sep).
Proof.
  intros Hs. apply split_go_no_sep; [exact Hs| |intros H; lia].
  intros a b Hab Hb. destruct a, b; simpl in Hab; congruence.
Qed.

End PyStrFacts.

(** ** The operation locator of [_extract_operation_from_key] *)
Module LocatorFacts.
Import Json Detector PyStr PyStrFacts.

Lemma quoted_method_has_close (m : string) : contains "']" ("['" ++ m ++ "']") = true.
Proof.
  apply contains_spec. exists ("['" ++ m)%string, "".
  rewrite sapp_nil_r. now rewrite sapp_assoc.
Qed.

Lemma method_in_part_none (part : string) :
  contains "']" part = false -> method_in_part part = None.
Proof.
  intros H. unfold method_in_part.
  destruct (find _ http_methods) as [m|] eqn:E; [|reflexivity].
  apply find_some in E as [_ Hm].
  rewrite (contains_trans _ _ _ (quoted_method_has_close m) Hm) in H. discriminate.
Qed.

Lemma scan_parts_no_method (parts : list string) (path : option string) :
  Forall (fun p => contains "']" p = false) parts ->
  forall r, scan_parts parts path None = Some r -> snd r = None.
Proof.
  revert path; induction parts as [|part rest IH]; intros path Hall r Hr; simpl in Hr.
  - now injection Hr as <-.
  - inversion Hall as [|? ? Hp Hrest]; subst.
    destruct (contains "['/" part).
    + destruct (after_open part); [|discriminate]. exact (IH _ Hrest r Hr).
    + rewrite (method_in_part_none part Hp) in Hr. exact (IH _ Hrest r Hr).
Qed.

(** The method test looks for [['get']] inside fragments already split on
    [']], so no key ever yields an operation. *)
Lemma extract_operation_from_key_none (key_str : string) :
  _extract_operation_from_key key_str = None.
Proof.
  unfold _extract_operation_from_key.
  destruct (contains "paths" key_str); [|reflexivity].
  destruct (scan_parts _ None None) as [[path method]|] eqn:E; [|reflexivity].
  pose proof (scan_parts_no_method _ None (split_no_sep key_str "']" ltac:(discriminate)) _ E)
    as Hm.
  simpl in Hm. subst method. destruct (truthy_opt path); reflexivity.
Qed.

Lemma extract_parameter_info_none (key_str : string) : _extract_parameter_info key_str = None.
Proof. unfold _extract_parameter_info. now rewrite extract_operation_from_key_none. Qed.

Lemma check_if_required_parameter_none (item_str : string) (spec : json) :
  _check_if_required_parameter item_str spec = None.
Proof. unfold _check_if_required_parameter. now rewrite extract_operation_from_key_none. Qed.

(** Parameter processing never records anything. *)
Lemma process_parameter_changes_id (d : DeepDiff.diff) (c : changes) (spec : json) :
  _process_parameter_changes d c spec = c.
Proof.
  unfold _process_parameter_changes.
  assert (Hf : forall es : list (string * json * json),
     flat_map (fun e : string * json * json =>
       let '(key, old_value, new_value) := e in
       if contains "required" key && contains "parameters" key then
         if eq_false old_value && eq_true new_value then
           match _extract_parameter_info key with Some i => [(true, i)] | None => [] end
         else if eq_true old_value && eq_false new_value then
           match _extract_parameter_info key with Some i => [(false, i)] | None => [] end
         else []
       else []) es = []).
  { induction es as [|[[k o] n] es IH]; [reflexivity|]. simpl.
    rewrite extract_parameter_info_none, IH.
    destruct (contains "required" k && contains "parameters" k),
      (eq_false o && eq_true n), (eq_true o && eq_false n); reflexivity. }
  assert (Hn : forall items : list string,
     flat_map (fun item =>
       if contains "parameters" item then
         match _check_if_required_parameter item spec with Some i => [i] | None => [] end
       else []) items = []).
  { induction items as [|it items IH]; [reflexivity|]. simpl.
    rewrite check_if_required_parameter_none, IH. destruct (contains _ _); reflexivity. }
  rewrite Hf, Hn. reflexivity.
Qed.

End LocatorFacts.

(** ** Reading locations back: splitting and stripping rendered keys *)
Module LocationFacts.
Import PyStr Json DeepDiff Detector PyStrFacts.
Local Open Scope string_scope.

Lemma prefix_empty (s : string) : prefix "" s = true.
Proof. destruct s; reflexivity. Qed.

Lemma contains_cons (n : string) (c : ascii) (s : string) :
  contains n (String c s) = prefix n (String c s) || contains n s.
Proof. reflexivity. Qed.

Lemma contains_char_cons (c d : ascii) (s : string) :
  contains (String c "") (String d s) = false -> c <> d /\ contains (String c "") s = false.
Proof.
  rewrite contains_cons. simpl. destruct (ascii_dec c d) as [->|Hne].
  - rewrite prefix_empty. discriminate.
  - intros H. split; assumption.
Qed.

(** Splitting runs over a stretch without the separator's first character. *)

Lemma split_go_free (c0 : ascii) (sep' a b cur : string) :
  contains (String c0 "") a = false ->
  split_go (String c0 sep') (a ++ b) cur 0 = split_go (String c0 sep') b (cur ++ a) 0.
Proof.
  revert cur; induction a as [|c a IH]; intros cur H.
  - simpl. now rewrite sapp_nil_r.
  - apply contains_char_cons in H as [Hne H].
    cbn [append split_go]. simpl prefix.
    destruct (ascii_dec c0 c) as [E|_]; [congruence|].
    rewrite IH by exact H. now rewrite sapp_assoc.
Qed.

Lemma split_go_skip (sep x b cur : string) :
  split_go sep (x ++ b) cur (String.length x) = split_go sep b cur 0.
Proof. induction x as [|c x IH]; [reflexivity|]. exact IH. Qed.

(** A separator at the head is cut. *)

Lemma split_go_cut (sep b cur : string) :
  sep <> EmptyString ->
  split_go sep (sep ++ b) cur 0 = cur :: split_go sep b "" 0.
Proof.
  intros Hs. destruct sep as [|c0 sep']; [contradiction|].
  assert (Hp : prefix (String c0 sep') (String c0 (sep' ++ b)) = true)
    by exact (prefix_app (String c0 sep') b).
  change (String c0 sep' ++ b)%string with (String c0 (sep' ++ b)).
  cbn [split_go]. rewrite Hp. simpl String.length. replace (S (String.length sep') - 1) with (String.length sep') by lia. f_equal. apply split_go_skip.
Qed.

Lemma split_go_none (sep s cur : string) :
  contains sep s = false -> split_go sep s cur 0 = [(cur ++ s)%string].
Proof.
  revert cur; induction s as [|c s IH]; intros cur H.
  - simpl. now rewrite sapp_nil_r.
  - rewrite contains_cons in H. apply orb_false_iff in H as [Hp H].
    cbn [split_go]. rewrite Hp, IH by exact H. now rewrite sapp_assoc.
Qed.

Lemma contains_quote_bracket (s : string) :
  contains "'" s = false -> contains "['" s = false.
Proof.
  intros H. destruct (contains "['" s) eqn:E; [|reflexivity].
  rewrite (contains_trans "'" "['" s eq_refl E) in H. discriminate.
Qed.

Lemma key_repr_plain (k : string) : contains "'" k = false -> key_repr k = ("['" ++ k ++ "']")%string.
Proof. intros H. unfold key_repr. now rewrite H. Qed.

Lemma startswith_slash (p : string) : startswith p "/" = true -> exists p', p = String "/" p'.
Proof. intros H. destruct (prefix_inv _ _ H) as [p' ->]. now exists p'. Qed.

Lemma operation_location_split (p' m rest : string) :
  contains "'" p' = false -> In m http_methods ->
  split (at_key (at_key (at_key "root" "paths") (String "/" p')) m ++ rest) "']"
  = "root['paths" :: ("['/" ++ p')%string :: ("['" ++ m)%string :: split rest "']".
Proof.
  intros Hp Hm.
  assert (Hp0 : contains "'" (String "/" p') = false) by exact Hp.
  unfold at_key. rewrite (key_repr_plain _ Hp0).
  assert (Hm0 : contains "'" m = false /\ key_repr m = ("['" ++ m ++ "']")%string
                /\ forall y, split_go "']" (key_repr m ++ y) "" 0 = ("['" ++ m)%string :: split_go "']" y "" 0).
  { simpl in Hm.
    repeat (destruct Hm as [<-|Hm];
            [split; [reflexivity | split; [reflexivity | intros y; simpl; now rewrite prefix_empty]]|]).
    destruct Hm. }
  destruct Hm0 as [_ [_ Hsplit]].
  replace ((("root" ++ key_repr "paths") ++ "['" ++ String "/" p' ++ "']") ++ key_repr m ++ rest)%string
    with ("root['paths']['/" ++ (p' ++ ("']" ++ (key_repr m ++ rest))))%string
    by (rewrite !sapp_assoc; reflexivity).
  unfold split. simpl.
  rewrite !sapp_assoc.
  rewrite (split_go_free "'" "]" p' _ _ Hp), split_go_cut by discriminate.
  rewrite Hsplit. reflexivity.
Qed.

Lemma after_open_slash (p' : string) :
  contains "'" p' = false -> after_open ("['/" ++ p') = Some (String "/" p').
Proof.
  intros H. unfold after_open, split. simpl.
  rewrite (split_go_none "['" p' "/" (contains_quote_bracket _ H)). reflexivity.
Qed.

Lemma after_open_method (m : string) : In m http_methods -> after_open ("['" ++ m) = Some m.
Proof. simpl. intros Hm. repeat (destruct Hm as [<-|Hm]; [reflexivity|]). destruct Hm. Qed.

Lemma contains_char (d : ascii) (x : string) : contains (String d "") x = in_chars d x.
Proof.
  induction x as [|c x IH]; [reflexivity|].
  rewrite contains_cons, IH. simpl. destruct (ascii_dec d c) as [->|Hne].
  - rewrite prefix_empty, Ascii.eqb_refl. reflexivity.
  - destruct (Ascii.eqb_spec d c); [contradiction | reflexivity].
Qed.

Lemma in_chars_app (d : ascii) (a b : string) : in_chars d (a ++ b) = in_chars d a || in_chars d b.
Proof. induction a as [|c a IH]; simpl; [reflexivity|]. now rewrite IH, orb_assoc. Qed.

Lemma rev_str_app (a b : string) : rev_str (a ++ b) = (rev_str b ++ rev_str a)%string.
Proof.
  induction a as [|c a IH]; simpl.
  - now rewrite sapp_nil_r.
  - now rewrite IH, sapp_assoc.
Qed.

Lemma rev_str_involutive (a : string) : rev_str (rev_str a) = a.
Proof. induction a as [|c a IH]; simpl; [reflexivity|]. now rewrite rev_str_app, IH. Qed.

Lemma in_chars_rev (d : ascii) (a : string) : in_chars d (rev_str a) = in_chars d a.
Proof.
  induction a as [|c a IH]; simpl; [reflexivity|].
  rewrite in_chars_app, IH. simpl. rewrite orb_false_r. apply orb_comm.
Qed.

Lemma lstrip_none (x chars : string) :
  (forall d, in_chars d x = true -> in_chars d chars = false) -> lstrip x chars = x.
Proof.
  destruct x as [|c x]; intros H; [reflexivity|]. simpl.
  rewrite (H c); [reflexivity|]. simpl. now rewrite Ascii.eqb_refl.
Qed.

Lemma lstrip_cons (c : ascii) (x chars : string) :
  lstrip (String c x) chars = if in_chars c chars then lstrip x chars else String c x.
Proof. reflexivity. Qed.

(** [("['" + p + "'").strip("['")] gives back [p]. *)

Lemma strip_quoted (p : string) :
  contains "'" p = false -> contains "[" p = false -> strip ("['" ++ p ++ "'") "['" = p.
Proof.
  rewrite !contains_char. intros Hq Hb.
  assert (Hfree : forall d, in_chars d p = true -> in_chars d "['" = false).
  { intros d Hd. simpl. destruct (Ascii.eqb_spec d "[") as [->|]; [congruence|].
    destruct (Ascii.eqb_spec d "'") as [->|]; [congruence|reflexivity]. }
  unfold strip. change (lstrip ("['" ++ p ++ "'") "['") with (lstrip (p ++ "'") "['").
  destruct p as [|c p0]; [reflexivity|].
  assert (Hc : in_chars c "['" = false).
  { apply Hfree. simpl. now rewrite Ascii.eqb_refl. }
  change (String c p0 ++ "'")%string with (String c (p0 ++ "'")).
  rewrite lstrip_cons, Hc. change (String c (p0 ++ "'")) with (String c p0 ++ "'")%string.
  rewrite rev_str_app. change (lstrip (rev_str "'" ++ rev_str (String c p0)) "['")
    with (lstrip (rev_str (String c p0)) "['").
  rewrite lstrip_none, rev_str_involutive; [reflexivity|].
  intros d Hd. rewrite in_chars_rev in Hd. exact (Hfree d Hd).
Qed.

Lemma split_go_length (sep s cur : string) (skip : nat) : 1 <= length (split_go sep s cur skip).
Proof.
  revert cur skip; induction s as [|c s IH]; intros cur skip; cbn [split_go]; [simpl; lia|].
  destruct skip as [|k]; [|apply IH].
  destruct (prefix sep (String c s)); [simpl; lia | apply IH].
Qed.

Lemma path_location_eq (p rest : string) :
  contains "'" p = false ->
  (at_key (at_key "root" "paths") p ++ rest)%string = ("root['paths']['" ++ (p ++ ("']" ++ rest)))%string.
Proof. intros Hq. unfold at_key. rewrite (key_repr_plain p Hq). now rewrite !sapp_assoc. Qed.

Lemma path_location_split (p rest : string) :
  contains "'" p = false -> contains "]" p = false ->
  split (at_key (at_key "root" "paths") p ++ rest) "]"
  = "root['paths'" :: ("['" ++ p ++ "'")%string :: split rest "]".
Proof.
  intros Hq Hb. rewrite (path_location_eq p rest Hq). unfold split. simpl.
  rewrite (split_go_free "]" "" p _ _ Hb). simpl. rewrite prefix_empty. simpl.
  reflexivity.
Qed.

Lemma extract_paths_location (p rest : string) :
  contains "'" p = false -> contains "[" p = false -> contains "]" p = false ->
  _extract_paths [at_key (at_key "root" "paths") p ++ rest] "paths" = [p].
Proof.
  intros Hq Hl Hb. unfold _extract_paths. cbn [flat_map]. cbv zeta.
  replace ("root['" ++ "paths" ++ "']")%string with "root['paths']" by reflexivity.
  assert (Hs : startswith (at_key (at_key "root" "paths") p ++ rest) "root['paths']" = true).
  { rewrite (path_location_eq p rest Hq). unfold startswith.
    change ("root['paths']['" ++ (p ++ ("']" ++ rest)))%string
      with ("root['paths']" ++ ("['" ++ (p ++ ("']" ++ rest))))%string.
    apply prefix_app. }
  rewrite Hs, (path_location_split p rest Hq Hb). cbn [nth_error length].
  pose proof (split_go_length "]" rest "" 0) as Hl1. unfold split.
  destruct (split_go "]" rest "" 0) as [|x xs]; [simpl in Hl1; lia|].
  cbn [nth_error length Nat.leb app]. now rewrite strip_quoted.
Qed.

Lemma extract_paths_cons (x : string) (xs : list string) (k : string) :
  _extract_paths (x :: xs) k = (_extract_paths [x] k ++ _extract_paths xs k)%list.
Proof. unfold _extract_paths. cbn [flat_map]. now rewrite app_nil_r. Qed.

Lemma extract_components_cons (x : string) (xs : list string) (k : string) :
  _extract_components (x :: xs) k = (_extract_components [x] k ++ _extract_components xs k)%list.
Proof. unfold _extract_components. cbn [flat_map]. now rewrite app_nil_r. Qed.

Lemma split_head (pre y : string) :
  pre <> EmptyString -> contains pre y = false -> split (pre ++ y) pre = [""; y].
Proof.
  intros Hne Hy. unfold split. rewrite (split_go_cut pre y "" Hne), (split_go_none _ _ _ Hy).
  reflexivity.
Qed.

Lemma split_quoted (n rest : string) :
  contains "'" n = false -> exists x tl, split (("['" ++ n ++ "']") ++ rest) "'" = "[" :: n :: x :: tl.
Proof.
  intros Hn. rewrite !sapp_assoc. unfold split.
  change ("['" ++ (n ++ ("']" ++ rest)))%string with ("[" ++ ("'" ++ (n ++ ("']" ++ rest))))%string.
  rewrite (split_go_free "'" "" "[" _ _ eq_refl), (split_go_cut "'" _ _ ltac:(discriminate)).
  rewrite (split_go_free "'" "" n _ _ Hn).
  change ("']" ++ rest)%string with ("'" ++ ("]" ++ rest))%string.
  rewrite (split_go_cut "'" _ _ ltac:(discriminate)).
  pose proof (split_go_length "'" ("]" ++ rest) "" 0) as Hl.
  destruct (split_go "'" ("]" ++ rest) "" 0) as [|x tl]; [simpl in Hl; lia|].
  now exists x, tl.
Qed.

Lemma extract_components_location (t n rest : string) :
  contains "." t = false -> contains "'" t = false -> contains "'" n = false ->
  contains (at_key (at_key "root" "components") t) (key_repr n ++ rest) = false ->
  _extract_components [at_key (at_key (at_key "root" "components") t) n ++ rest] ("components." ++ t)
  = [n].
Proof.
  intros Hd Ht Hn Hrest.
  unfold _extract_components. cbv zeta.
  assert (Hkp : split ("components." ++ t) "." = ["components"; t]).
  { unfold split. simpl. rewrite prefix_empty. simpl. now rewrite split_go_none. }
  rewrite Hkp. cbn [nth].
  assert (Hpre : ("root['" ++ "components" ++ "']['" ++ t ++ "']")%string
                 = at_key (at_key "root" "components") t).
  { unfold at_key. rewrite (key_repr_plain t Ht). now rewrite !sapp_assoc. }
  rewrite Hpre.
  assert (Hpre_ne : at_key (at_key "root" "components") t <> EmptyString) by discriminate.
  set (pre := at_key (at_key "root" "components") t) in *.
  replace (at_key pre n ++ rest)%string with (pre ++ (key_repr n ++ rest))%string
    by (unfold at_key; now rewrite sapp_assoc).
  assert (Hin : contains pre (pre ++ (key_repr n ++ rest)) = true).
  { apply contains_spec. exists "", (key_repr n ++ rest)%string. reflexivity. }
  cbn [flat_map]. rewrite Hin, (split_head pre _ Hpre_ne Hrest). cbn [nth].
  rewrite (key_repr_plain n Hn). destruct (split_quoted n rest Hn) as [x [tl ->]].
  reflexivity.
Qed.

End LocationFacts.

(** ** Which categories each processing step writes *)
Module ReportKeys.
Import Json Detector Predicates.

Lemma assoc_setitem (k k' : string) (v : list string) (d : cats) :
  assoc k (setitem k' v d) = if String.eqb k k' then Some v else assoc k d.
Proof.
  induction d as [|[kk vv] d IH]; simpl; [reflexivity|].
  destruct (String.eqb_spec k' kk) as [<-|Hne]; simpl.
  - destruct (String.eqb k k'); reflexivity.
  - rewrite IH. destruct (String.eqb_spec k kk) as [->|]; [|reflexivity].
    destruct (String.eqb_spec kk k') as [->|]; [congruence | reflexivity].
Qed.

Lemma agree_refl (k : string) (c : changes) : agree_on k c c.
Proof. repeat split. Qed.

Lemma agree_trans (k : string) (a b c : changes) :
  agree_on k a b -> agree_on k b c -> agree_on k a c.
Proof. intros [? [? ?]] [? [? ?]]. repeat split; congruence. Qed.

Lemma agree_set_if_added (k k' : string) (xs : list string) (c : changes) :
  String.eqb k k' = false -> agree_on k c (set_if set_added k' xs c).
Proof.
  intros H. destruct xs; [apply agree_refl|]. unfold agree_on; simpl.
  rewrite assoc_setitem, H. repeat split.
Qed.

Lemma agree_set_if_changed (k k' : string) (xs : list string) (c : changes) :
  String.eqb k k' = false -> agree_on k c (set_if set_changed k' xs c).
Proof.
  intros H. destruct xs; [apply agree_refl|]. unfold agree_on; simpl.
  rewrite assoc_setitem, H. repeat split.
Qed.

Lemma agree_set_if_removed (k k' : string) (xs : list string) (c : changes) :
  String.eqb k k' = false -> agree_on k c (set_if set_removed k' xs c).
Proof.
  intros H. destruct xs; [apply agree_refl|]. unfold agree_on; simpl.
  rewrite assoc_setitem, H. repeat split.
Qed.

Ltac agree_chain :=
  repeat (first
    [ apply agree_refl
    | eapply agree_trans;
      [ idtac
      | first [ apply agree_set_if_added | apply agree_set_if_changed
              | apply agree_set_if_removed ]; assumption ] ]).

Lemma agree_path_changes (k : string) (d : DeepDiff.diff) (c : changes) :
  String.eqb k "paths" = false -> agree_on k c (_process_path_changes d c).
Proof. intros. unfold _process_path_changes. agree_chain. Qed.

Lemma agree_operation_changes (k : string) (d : DeepDiff.diff) (c c' : changes) (prev : json) :
  String.eqb k "operations" = false ->
  _process_operation_changes d c prev = Ok c' -> agree_on k c c'.
Proof.
  intros Hk H. unfold _process_operation_changes in H.
  destruct (ops_added_loop _ _ _) as [[[ao co] pp]|e]; simpl in H; [|discriminate].
  injection H as <-. agree_chain.
Qed.

Lemma agree_request_response_changes (k : string) (d : DeepDiff.diff) (c : changes) :
  String.eqb k "request_formats" = false -> String.eqb k "response_formats" = false ->
  agree_on k c (_process_request_response_changes d c).
Proof. intros. unfold _process_request_response_changes. agree_chain. Qed.

Lemma agree_security_changes (k : string) (d : DeepDiff.diff) (c : changes) :
  String.eqb k "global_security" = false -> String.eqb k "operation_security" = false ->
  String.eqb k "security_schemes" = false ->
  agree_on k c (_process_security_changes d c).
Proof. intros. unfold _process_security_changes. agree_chain. Qed.

Lemma agree_component_changes (k : string) (d : DeepDiff.diff) (c : changes) :
  forallb (fun t => negb (String.eqb k t)) components_types = true ->
  agree_on k c (_process_component_changes d c).
Proof.
  intros H. unfold _process_component_changes.
  generalize c. induction components_types as [|t ts IH]; intros c0; simpl in *.
  - apply agree_refl.
  - apply andb_prop in H as [Ht Hts]. apply negb_true_iff in Ht.
    eapply agree_trans; [|apply (IH Hts)]. agree_chain.
Qed.

(** The steps after operation processing leave [k] alone when it is not one
    of the categories they write. *)
Lemma agree_after_operations (k : string) (d : DeepDiff.diff) (c : changes) (cur : json) :
  String.eqb k "request_formats" = false -> String.eqb k "response_formats" = false ->
  String.eqb k "global_security" = false -> String.eqb k "operation_security" = false ->
  String.eqb k "security_schemes" = false ->
  forallb (fun t => negb (String.eqb k t)) components_types = true ->
  agree_on k c (_process_component_changes d (_process_security_changes d
                  (_process_request_response_changes d (_process_parameter_changes d c cur)))).
Proof.
  intros. rewrite LocatorFacts.process_parameter_changes_id.
  eapply agree_trans; [apply agree_request_response_changes; assumption|].
  eapply agree_trans; [apply agree_security_changes; assumption|].
  apply agree_component_changes; assumption.
Qed.

End ReportKeys.

(** ** Order independence of the differ *)
Module OrderFacts.
Import Json DeepDiff Predicates.

Lemma hash_eq_list (xs ys : list json) :
  hash_eq (JList xs) (JList ys)
  = forallb (fun x => existsb (hash_eq x) ys) xs
    && forallb (fun y => existsb (fun x => hash_eq x y) xs) ys.
Proof.
  reflexivity.
Qed.

Lemma hash_eq_obj (kvs kvs' : list (string * json)) :
  hash_eq (JObj kvs) (JObj kvs')
  = forallb (fun kv => match assoc (fst kv) kvs' with
                       | Some v' => hash_eq (snd kv) v' | None => false end) kvs
    && forallb (fun kv => mem_key (fst kv) kvs) kvs'.
Proof.
  cbn [hash_eq]. f_equal.
  induction kvs as [|[k v] r IH]; simpl; [reflexivity | now rewrite IH].
Qed.

Lemma wf_list (xs : list json) : wf (JList xs) -> Forall wf xs.
Proof.
  simpl. induction xs as [|x r IH]; intros H; [constructor|].
  destruct H as [Hx Hr]. constructor; auto.
Qed.

Lemma wf_obj (kvs : list (string * json)) :
  wf (JObj kvs) -> NoDup (keys kvs) /\ Forall (fun kv => wf (snd kv)) kvs.
Proof.
  simpl. intros [Hnd H]. split; [exact Hnd|]. clear Hnd.
  induction kvs as [|[k v] r IH]; [constructor|].
  destruct H as [Hv Hr]. constructor; auto.
Qed.

Lemma assoc_in_nodup (kvs : list (string * json)) (k : string) (v : json) :
  NoDup (keys kvs) -> In (k, v) kvs -> assoc k kvs = Some v.
Proof.
  induction kvs as [|[k' v'] r IH]; intros Hnd Hin; [destruct Hin|].
  simpl in *. inversion Hnd as [|? ? Hnot Hnd']; subst.
  destruct Hin as [Heq|Hin].
  - injection Heq as -> ->. now rewrite String.eqb_refl.
  - destruct (String.eqb_spec k k') as [->|]; [|exact (IH Hnd' Hin)].
    exfalso. apply Hnot. apply in_map_iff. now exists (k', v).
Qed.

Lemma assoc_some_mem {A} (kvs : list (string * A)) (k : string) (v : A) :
  assoc k kvs = Some v -> mem_key k kvs = true.
Proof.
  unfold mem_key. induction kvs as [|[k' v'] r IH]; simpl; [discriminate|].
  destruct (String.eqb_spec k k') as [->|]; intros H; [reflexivity|].
  exact (IH H).
Qed.

Lemma Forall2_in_l {A B} (R : A -> B -> Prop) (xs : list A) (ys : list B) (x : A) :
  Forall2 R xs ys -> In x xs -> exists y, In y ys /\ R x y.
Proof.
  induction 1 as [|a b xs' ys' Hab _ IH]; intros Hin; [destruct Hin|].
  destruct Hin as [<-|Hin]; [exists b; split; [now left | exact Hab]|].
  destruct (IH Hin) as [y [Hy HR]]. exists y. split; [now right | exact HR].
Qed.

Lemma Forall2_in_r {A B} (R : A -> B -> Prop) (xs : list A) (ys : list B) (y : B) :
  Forall2 R xs ys -> In y ys -> exists x, In x xs /\ R x y.
Proof.
  induction 1 as [|a b xs' ys' Hab _ IH]; intros Hin; [destruct Hin|].
  destruct Hin as [<-|Hin]; [exists a; split; [now left | exact Hab]|].
  destruct (IH Hin) as [x [Hx HR]]. exists x. split; [now right | exact HR].
Qed.

(** Documents equal up to order have equal DeepHash digests. *)
Lemma same_up_to_order_hash_eq (a b : json) :
  wf b -> same_up_to_order a b -> hash_eq a b = true.
Proof.
  revert b. induction a as [|x|x|x|xs IH|kvs IH] using json_deep_ind;
    intros b Hwf H;
    inversion H as [| | | |xs0 ys ys' Hf Hp|kvs0 kvs' kvs'' Hf Hp]; subst.
  - reflexivity.
  - apply Bool.eqb_reflx.
  - apply Z.eqb_refl.
  - apply String.eqb_refl.
  -     assert (Hwys : Forall wf ys) by
      (apply Forall_forall; intros y Hy;
       apply (proj1 (Forall_forall _ _) (wf_list _ Hwf)); now apply (Permutation_in _ Hp)).
    rewrite hash_eq_list. apply andb_true_intro; split; apply forallb_forall.
    + intros x Hx. destruct (Forall2_in_l _ _ _ x Hf Hx) as [y [Hy Hxy]].
      apply existsb_exists. exists y. split; [now apply (Permutation_in _ Hp)|].
      apply (proj1 (Forall_forall _ _) IH x Hx); [|exact Hxy].
      exact (proj1 (Forall_forall _ _) Hwys y Hy).
    + intros y Hy. apply (Permutation_in _ (Permutation_sym Hp)) in Hy.
      destruct (Forall2_in_r _ _ _ y Hf Hy) as [x [Hx Hxy]].
      apply existsb_exists. exists x. split; [exact Hx|].
      apply (proj1 (Forall_forall _ _) IH x Hx); [|exact Hxy].
      exact (proj1 (Forall_forall _ _) Hwys y Hy).
  - destruct (wf_obj _ Hwf) as [Hnd Hwv].
    rewrite hash_eq_obj. apply andb_true_intro; split; apply forallb_forall.
    + intros [k v] Hkv. destruct (Forall2_in_l _ _ _ _ Hf Hkv) as [[k' v'] [Hin [Hk Hv]]].
      simpl in Hk, Hv. subst k'. simpl.
      apply (Permutation_in _ Hp) in Hin.
      rewrite (assoc_in_nodup _ _ _ Hnd Hin).
      apply (proj1 (Forall_forall _ _) IH (k, v) Hkv); [|exact Hv].
      exact (proj1 (Forall_forall _ _) Hwv (k, v') Hin).
    + intros [k v] Hkv. apply (Permutation_in _ (Permutation_sym Hp)) in Hkv.
      destruct (Forall2_in_r _ _ _ _ Hf Hkv) as [[k' v'] [Hin [Hk _]]].
      simpl in Hk. subst k'. simpl. unfold mem_key. apply existsb_exists.
      exists k. split; [apply in_map_iff; now exists (k, v') | apply String.eqb_refl].
Qed.

Lemma dapp_empty_l (d : diff) : dapp empty d = d.
Proof. destruct d; reflexivity. Qed.

Lemma unmatched_in_nil (ys xs : list json) (i : nat) :
  forallb (fun x => existsb (fun y => hash_eq y x) ys) xs = true -> unmatched_in ys xs i = [].
Proof.
  revert i; induction xs as [|x r IH]; intros i H; simpl in *; [reflexivity|].
  apply andb_prop in H as [Hx Hr]. rewrite Hx. simpl. exact (IH (S i) Hr).
Qed.

(** DeepDiff reports nothing between values with equal digests. *)
Lemma hash_eq_ddiff_empty (gp : bool) (a b : json) (path : string) :
  hash_eq a b = true -> ddiff gp path a b = empty.
Proof.
  revert b path. induction a as [|x|x|x|xs IH|kvs IH] using json_deep_ind;
    intros b path H; destruct b as [|y|y|y|ys|kvs']; try (simpl in H; discriminate H).
  - reflexivity.
  - simpl in H |- *. now rewrite H.
  - simpl in H |- *. now rewrite H.
  - simpl in H |- *. now rewrite H.
  - rewrite hash_eq_list in H. apply andb_prop in H as [H1 H2].
    cbn [ddiff]. rewrite (unmatched_in_nil _ _ 0 H2). clear IH H2.
    generalize 0. induction xs as [|x r IHr]; intros i; [reflexivity|].
    simpl in H1. apply andb_prop in H1 as [Hx Hr]. simpl. rewrite Hx. exact (IHr Hr (S i)).
  - rewrite hash_eq_obj in H. apply andb_prop in H as [H1 H2].
    cbn [ddiff].
    assert (Hadd : filter (fun k => negb (mem_key k kvs)) (keys kvs') = []).
    { clear IH H1. unfold keys. induction kvs' as [|[k v] r IHr]; [reflexivity|].
      simpl in H2 |- *. apply andb_prop in H2 as [Hk Hr]. rewrite Hk. exact (IHr Hr). }
    assert (Hrem : filter (fun k => negb (mem_key k kvs')) (keys kvs) = []).
    { clear IH Hadd H2. unfold keys. induction kvs as [|[k v] r IHr]; [reflexivity|].
      simpl in H1 |- *. apply andb_prop in H1 as [Hk Hr].
      destruct (assoc k kvs') as [v'|] eqn:E; [|discriminate].
      rewrite (assoc_some_mem _ _ _ E). exact (IHr Hr). }
    rewrite Hadd, Hrem. simpl map. rewrite dapp_empty_l.
    clear Hadd Hrem H2.
    induction kvs as [|[k v] r IHr]; [reflexivity|].
    simpl in H1. apply andb_prop in H1 as [Hk Hr].
    inversion IH as [|? ? Hv IHrest]; subst.
    simpl. destruct (assoc k kvs') as [v'|] eqn:E; [|discriminate].
    rewrite (Hv v' _ Hk), dapp_empty_l. exact (IHr IHrest Hr).
Qed.

Lemma same_up_to_order_truthy (a b : json) : same_up_to_order a b -> truthy a = truthy b.
Proof.
  intros H. inversion H as [| | | |xs ys ys' Hf Hp|kvs kvs' kvs'' Hf Hp]; subst; try reflexivity.
  - apply Forall2_length in Hf. apply Permutation_length in Hp. simpl.
    destruct xs, ys, ys'; simpl in *; congruence.
  - apply Forall2_length in Hf. apply Permutation_length in Hp. simpl.
    destruct kvs, kvs', kvs''; simpl in *; congruence.
Qed.

Lemma same_up_to_order_refl (a : json) : same_up_to_order a a.
Proof.
  induction a as [|x|x|x|xs IH|kvs IH] using json_deep_ind; try constructor.
  - apply (suo_list xs xs xs); [|apply Permutation_refl].
    induction IH; constructor; auto.
  - apply (suo_obj kvs kvs kvs); [|apply Permutation_refl].
    induction IH; constructor; auto.
Qed.

End OrderFacts.

(** ** webhook_notifier.py: the counters of [_extract_spec_info] *)
Module NotifierFacts.
Import Json Detector Notifier Predicates.

(** Walks the binds of a successful [res] computation. *)
Ltac res_inv H :=
  repeat match type of H with
  | bind ?m _ = _ => let E := fresh "E" in destruct m eqn:E; cbn [bind] in H; [|discriminate H]
  end.

Lemma zsum_zset (k : string) (v : Z) (d : list (string * Z)) :
  zsum (zset k v d) = (zsum d - match assoc k d with Some n => n | None => 0 end + v)%Z.
Proof.
  unfold zsum. induction d as [|[k' v'] r IH]; simpl; [lia|].
  destruct (String.eqb_spec k k'); simpl; [lia|]. rewrite IH. lia.
Qed.

Lemma zsum_zbump (k : string) (d : list (string * Z)) : zsum (zbump k d) = (zsum d + 1)%Z.
Proof. unfold zbump. rewrite zsum_zset. lia. Qed.

Lemma py_in_str_container (m : string) (v : json) :
  container v = true -> py_in_str m v = Ok (in_obj v m).
Proof. destruct v; simpl; congruence. Qed.

Lemma count_methods_ok (po : json) (ms : list string) (c : Z) (b : list (string * Z)) :
  container po = true ->
  exists b', count_methods po ms c b = Ok ((c + Z.of_nat (length (filter (in_obj po) ms)))%Z, b')
             /\ zsum b' = (zsum b + Z.of_nat (length (filter (in_obj po) ms)))%Z.
Proof.
  intros Hc. revert c b; induction ms as [|m ms IH]; intros c b; simpl.
  - exists b. split; [f_equal; f_equal; lia | lia].
  - rewrite (py_in_str_container m po Hc). simpl. destruct (in_obj po m).
    + destruct (IH (c + 1)%Z (zbump (PyStr.upper m) b)) as [b' [E S]]. exists b'. rewrite E.
      split; [f_equal; f_equal; simpl length; lia|]. rewrite S, zsum_zbump. simpl length. lia.
    + exact (IH c b).
Qed.

Lemma count_methods_raise (po : json) (ms : list string) (c : Z) (b : list (string * Z)) r :
  container po = false -> ms <> [] -> count_methods po ms c b <> Ok r.
Proof.
  intros Hc Hms. destruct ms as [|m ms]; [contradiction|]. simpl.
  destruct po; simpl in Hc; try discriminate; simpl; discriminate.
Qed.

Lemma ops_of_path_ok (path : string) (po : json) (ms : list string) :
  container po = true ->
  ops_of_path path po ms = Ok (map (fun m => op_name m path) (filter (in_obj po) ms)).
Proof.
  intros Hc. induction ms as [|m ms IH]; simpl; [reflexivity|].
  rewrite (py_in_str_container m po Hc). simpl. rewrite IH. simpl.
  destruct (in_obj po m); reflexivity.
Qed.

Lemma methods_filter_length (f : string -> bool) :
  length (filter f spec_info_methods) = length (filter f http_methods).
Proof.
  unfold spec_info_methods, http_methods. simpl.
  destruct (f "get"), (f "post"), (f "put"), (f "delete"), (f "patch"), (f "options"),
    (f "head"), (f "trace"); reflexivity.
Qed.

Lemma count_paths_ok (items : list (string * json)) (c : Z) (b : list (string * Z)) n b' :
  count_paths items c b = Ok (n, b') ->
  exists ops, all_ops items = Ok ops /\ n = (c + Z.of_nat (length ops))%Z
              /\ zsum b' = (zsum b + Z.of_nat (length ops))%Z.
Proof.
  revert c b; induction items as [|[path po] r IH]; intros c b H; cbn [count_paths] in H.
  - injection H as <- <-. exists []. simpl. split; [reflexivity | split; lia].
  - destruct (container po) eqn:Hc.
    + destruct (count_methods_ok po spec_info_methods c b Hc) as [b1 [E S]].
      rewrite E in H. cbn [bind fst snd] in H. destruct (IH _ _ H) as [ops [Ea [En Eb]]].
      exists (map (fun m => op_name m path) (filter (in_obj po) http_methods) ++ ops)%list.
      cbn [all_ops]. rewrite (ops_of_path_ok path po http_methods Hc), Ea. cbn [bind].
      rewrite length_app, length_map, <- methods_filter_length.
      split; [reflexivity | split; lia].
    + destruct (count_methods po spec_info_methods c b) as [acc|e] eqn:E; [|discriminate].
      exfalso. exact (count_methods_raise po spec_info_methods c b acc Hc ltac:(discriminate) E).
Qed.

(** One line of the changelog gives at most one entry. *)
Lemma parse_line_shape (raw : string) :
  length (parse_line raw) = (if PyStr.truthy (PyStr.strip_ws raw) then 1 else 0)%nat
  /\ Forall (fun e => exists ty t, e = changelog_entry ty t /\ In ty ["heading"; "item"; "text"])
            (parse_line raw).
Proof.
  unfold parse_line. destruct (PyStr.truthy (PyStr.strip_ws raw)); [|split; [reflexivity | constructor]].
  repeat match goal with |- context [if ?b then _ else _] => destruct b end;
    (split; [reflexivity | repeat constructor; eexists _, _; split; [reflexivity | simpl; tauto]]).
Qed.

End NotifierFacts.

(** ** diff_detector.py: categories the processing steps never write *)
Module CategoryFacts.
Import Json Detector Predicates ReportKeys.

Lemma flat_map_nil {A B} (f : A -> list B) (l : list A) :
  (forall x, f x = []) -> flat_map f l = [].
Proof. intros H. induction l as [|x l IH]; simpl; [reflexivity|]. now rewrite H, IH. Qed.

Ltac no_ops :=
  intros ?; cbv beta; rewrite ?LocatorFacts.extract_operation_from_key_none;
  repeat match goal with |- context [if ?b then _ else _] => destruct b end; reflexivity.

(** [_process_request_response_changes] finds no operation, so it adds nothing. *)
Lemma request_response_changes_id (d : DeepDiff.diff) (c : changes) :
  _process_request_response_changes d c = c.
Proof.
  unfold _process_request_response_changes. cbv zeta.
  repeat (rewrite flat_map_nil by no_ops). reflexivity.
Qed.

(** [_process_security_changes] never writes [operation_security]. *)
Lemma agree_security_operation (d : DeepDiff.diff) (c : changes) :
  agree_on "operation_security" c (_process_security_changes d c).
Proof.
  unfold _process_security_changes. cbv zeta.
  rewrite (flat_map_nil (fun k => if PyStr.contains "security" k && PyStr.contains "paths" k then _ else []) _)
    by no_ops.
  cbn [set_if].
  assert (H1 : String.eqb "operation_security" "security_schemes" = false) by reflexivity.
  assert (H2 : String.eqb "operation_security" "global_security" = false) by reflexivity.
  agree_chain.
Qed.

End CategoryFacts.

(** ** main.py: the check cycle on an unchanged document *)
Module MonitorFacts.
Import Json Detector Monitor Predicates.

(** A well-formed document compared with itself gives no result. *)
Lemma detect_changes_self (gp : bool) (x : json) : wf x -> detect_changes gp x x = Ok None.
Proof.
  intros Hwf. unfold detect_changes. destruct (truthy x); simpl; [|reflexivity].
  unfold DeepDiff.DeepDiff.
  rewrite (OrderFacts.hash_eq_ddiff_empty gp x x "root"
             (OrderFacts.same_up_to_order_hash_eq _ _ Hwf (OrderFacts.same_up_to_order_refl x))).
  reflexivity.
Qed.

End MonitorFacts.

(** ** The claims *)
Module Claims.
Import Json DeepDiff Detector Monitor Scenarios Predicates ReportKeys.

(** Unfolding [detect_changes] on its three branches. *)
Lemma detect_changes_cases (gp : bool) (cur prev : json) (r : changes) :
  detect_changes gp cur prev = Ok (Some r) ->
  truthy cur = true /\
  ((truthy prev = false /\ exists p s,
      r = mkChanges [("paths", p); ("security_schemes", s)] [] [])
   \/ (truthy prev = true /\ _categorize_changes (DeepDiff gp prev cur) prev cur = Ok r)).
Proof.
  unfold detect_changes. destruct (truthy cur); simpl; [|discriminate].
  destruct (truthy prev); simpl.
  - destruct (_categorize_changes _ _ _) as [ch|e]; [|discriminate].
    destruct (any_values ch); [|discriminate]. intros H; injection H as <-.
    split; [reflexivity|]. right. split; reflexivity.
  - intros H. split; [reflexivity|]. left. split; [reflexivity|].
    destruct (get cur "paths" _) as [pv|]; [|discriminate]; simpl in H.
    destruct (dict_keys pv) as [p|]; [|discriminate]; simpl in H.
    destruct (get cur "components" _) as [cv|]; [|discriminate]; simpl in H.
    destruct (get cv "securitySchemes" _) as [sv|]; [|discriminate]; simpl in H.
    destruct (dict_keys sv) as [s|]; [|discriminate]; simpl in H.
    injection H as <-. now exists p, s.
Qed.

(** A categorised report agrees with the empty one on [k] when no step
    writes [k]. *)
Lemma categorize_agree_empty (k : string) (d : DeepDiff.diff) (prev cur : json) (c : changes) :
  String.eqb k "paths" = false -> String.eqb k "operations" = false ->
  String.eqb k "request_formats" = false -> String.eqb k "response_formats" = false ->
  String.eqb k "global_security" = false -> String.eqb k "operation_security" = false ->
  String.eqb k "security_schemes" = false ->
  forallb (fun t => negb (String.eqb k t)) components_types = true ->
  _categorize_changes d prev cur = Ok c -> agree_on k (mkChanges [] [] []) c.
Proof.
  intros H1 H2 H3 H4 H5 H6 H7 H8 H. unfold _categorize_changes in H.
  destruct (_process_operation_changes d _ prev) as [c1|e] eqn:E; simpl in H; [|discriminate].
  injection H as <-.
  eapply agree_trans; [apply (agree_path_changes k d); exact H1|].
  eapply agree_trans; [apply (agree_operation_changes k d _ _ prev H2 E)|].
  apply agree_after_operations; assumption.
Qed.

(** C7: a document compared with a reordering of itself (map keys in
    another insertion order, list elements such as [security]
    requirements permuted), and in particular with itself, gives no
    result.  [wf] says the current document's maps have distinct keys, as
    every parsed Python dict has. *)
Theorem detect_changes_order_independent (gp : bool) (prev cur : json) :
  wf cur -> same_up_to_order prev cur -> detect_changes gp cur prev = Ok None.
Proof.
  intros Hwf Hs. unfold detect_changes.
  rewrite (OrderFacts.same_up_to_order_truthy _ _ Hs).
  destruct (truthy cur); simpl; [|reflexivity].
  unfold DeepDiff.DeepDiff.
  rewrite (OrderFacts.hash_eq_ddiff_empty gp prev cur "root"
             (OrderFacts.same_up_to_order_hash_eq _ _ Hwf Hs)).
  reflexivity.
Qed.

Lemma detect_changes_order_independent_witness :
  wf (secured [req_key; req_bearer] true)
  /\ same_up_to_order (secured [req_bearer; req_key] false) (secured [req_key; req_bearer] true)
  /\ detect_changes true (secured [req_key; req_bearer] true) (secured [req_bearer; req_key] false)
     = Ok None.
Proof.
  assert (Hwf : wf (secured [req_key; req_bearer] true)).
  { simpl. repeat split; repeat constructor; simpl; intuition discriminate. }
  assert (Hs : same_up_to_order (secured [req_bearer; req_key] false) (secured [req_key; req_bearer] true)).
  { unfold secured. simpl.
    eapply suo_obj; [|apply Permutation_sym, Permutation_rev].
    simpl. repeat constructor; try apply OrderFacts.same_up_to_order_refl.
    eapply suo_list; [|apply perm_swap].
    repeat constructor; apply OrderFacts.same_up_to_order_refl. }
  split; [exact Hwf|]. split; [exact Hs|].
  apply (detect_changes_order_independent true _ _ Hwf Hs).
Defined.

(** C9: after a run of the check cycle the snapshot files are either
    untouched, or the run detected a report, the notifier delivered it,
    and only then the fetched document became the current snapshot (the
    old current one moving to previous).  When no detected report is
    delivered, nothing is written. *)
Theorem stored_current_updated_only_after_delivery
    (gp : bool) (notify : json -> delivery) (fetched : json) (st : store) :
  let old := load_json_from_file (current_file st) in
  let st' := stored_after gp notify fetched st in
  (st' = st
   \/ exists r, detect_changes gp fetched old = Ok (Some r)
        /\ notify (report_json r) = Delivered
        /\ current_file st' = Some fetched
        /\ previous_file st' = (if truthy old then Some old else previous_file st))
  /\ ((forall r, detect_changes gp fetched old = Ok (Some r) -> notify (report_json r) <> Delivered)
      -> st' = st).
Proof.
  cbv zeta. unfold stored_after, check_for_changes, get_stored_specs.
  destruct (truthy fetched) eqn:Hf; simpl; [|split; [left|intros _]; reflexivity].
  destruct (detect_changes gp fetched _) as [[r|]|e] eqn:E; simpl;
    [|split; [left|intros _]; reflexivity|split; [left|intros _]; reflexivity].
  destruct (notify (report_json r)) as [| |e] eqn:N;
    [|split; [left|intros _]; reflexivity|split; [left|intros _]; reflexivity].
  split.
  - right. exists r. split; [reflexivity|]. split; [exact N|].
    destruct fetched; [discriminate Hf| | | | |]; simpl;
      (split; [reflexivity|]);
      destruct (truthy (load_json_from_file (current_file st))); reflexivity.
  - intros H. exfalso. exact (H r eq_refl N).
Qed.

Lemma stored_current_updated_only_after_delivery_witness :
  (exists r, detect_changes true users_get_post users_get = Ok (Some r))
  /\ stored_after true (fun _ => NotDelivered) users_get_post (mkStore (Some users_get) None)
     = mkStore (Some users_get) None.
Proof.
  split; [eexists; vm_compute; reflexivity|].
  apply (proj2 (stored_current_updated_only_after_delivery true (fun _ => NotDelivered)
                  users_get_post (mkStore (Some users_get) None))).
  intros r _. discriminate.
Defined.

(** C10: an empty or missing current document gives no result, whatever
    the previous document. *)
Theorem detect_changes_empty_current (gp : bool) (cur prev : json) :
  truthy cur = false -> detect_changes gp cur prev = Ok None.
Proof. intros H. unfold detect_changes. now rewrite H. Qed.

Lemma detect_changes_empty_current_witness :
  truthy (JObj []) = false /\ detect_changes true (JObj []) users_get_post = Ok None.
Proof.
  split; [reflexivity|]. apply (detect_changes_empty_current true (JObj []) users_get_post).
  reflexivity.
Defined.

(** C6: bootstrap.  With a missing or empty previous document, the report of
    a non-empty current document lists the keys of its [paths] and of its
    [components.securitySchemes] as added, and nothing as changed or
    removed (the fields being mappings when present). *)
Theorem bootstrap_report (gp : bool) (cur prev : json)
    (paths comps schemes : list (string * json)) :
  truthy cur = true -> truthy prev = false ->
  get cur "paths" (JObj []) = Ok (JObj paths) ->
  get cur "components" (JObj []) = Ok (JObj comps) ->
  get (JObj comps) "securitySchemes" (JObj []) = Ok (JObj schemes) ->
  detect_changes gp cur prev
  = Ok (Some (mkChanges [("paths", keys paths); ("security_schemes", keys schemes)] [] [])).
Proof.
  intros Hc Hp Hpaths Hcomps Hs. unfold detect_changes. rewrite Hc, Hp. simpl.
  rewrite Hpaths. simpl. rewrite Hcomps. simpl. simpl in Hs. injection Hs as Hs.
  rewrite Hs. reflexivity.
Qed.

Lemma bootstrap_report_witness :
  detect_changes true (secured [req_key] false) JNull
  = Ok (Some (mkChanges [("paths", ["/users"]); ("security_schemes", ["bearer"; "key"])] [] [])).
Proof.
  apply (bootstrap_report true (secured [req_key] false) JNull
           [("/users", JObj [("get", JObj [("summary", JStr "list")])])]
           [("securitySchemes", JObj [("bearer", JObj [("type", JStr "http")]);
                                      ("key", JObj [("type", JStr "apiKey")])])]
           [("bearer", JObj [("type", JStr "http")]); ("key", JObj [("type", JStr "apiKey")])]);
    reflexivity.
Defined.

(** C8: with both documents non-empty, [detect_changes] never raises, and an
    exception raised while categorising the diff gives no result. *)
Theorem detect_changes_catches (gp : bool) (cur prev : json) :
  truthy cur = true -> truthy prev = true ->
  (exists v, detect_changes gp cur prev = Ok v)
  /\ (forall e, _categorize_changes (DeepDiff gp prev cur) prev cur = Raise e ->
         detect_changes gp cur prev = Ok None).
Proof.
  intros Hc Hp. unfold detect_changes. rewrite Hc, Hp. simpl. split.
  - destruct (_categorize_changes _ _ _) as [ch|e]; [|eauto].
    destruct (any_values ch); eauto.
  - intros e ->. reflexivity.
Qed.

Lemma detect_changes_catches_witness :
  _categorize_changes (DeepDiff true odd_prev odd_cur) odd_prev odd_cur = Raise TypeError
  /\ detect_changes true odd_cur odd_prev = Ok None.
Proof.
  split; [reflexivity|].
  apply (proj2 (detect_changes_catches true odd_cur odd_prev eq_refl eq_refl) TypeError).
  reflexivity.
Defined.

(** C1, on the code: the report of [detect_changes] is the dict of
    [added], [changed] and [removed] only, and no step of the pipeline
    derives a breaking verdict from it.  So for a report that the breaking
    predicate marks breaking (a removed path, a removed operation or an
    added required parameter), the verdict the check cycle reads with
    [diff_result.get('has_breaking_changes')] is false, and the payload
    [_prepare_payload] builds for the webhook carries
    [has_breaking_changes = False]. *)
Theorem detect_changes_breaking_verdict_false (gp : bool) (cur prev : json) (r : changes)
    (timestamp spec_source notification_id : string) :
  detect_changes gp cur prev = Ok (Some r) ->
  (assoc "paths" (removed r) <> None \/ assoc "operations" (removed r) <> None
   \/ assoc "required_parameters" (added r) <> None) ->
  breaking_verdict (report_json r) = false
  /\ exists payload,
       Notifier._prepare_payload timestamp spec_source notification_id (report_json r) = Ok payload
       /\ get payload "has_breaking_changes" JNull = Ok (JBool false).
Proof.
  intros _ _. split; [reflexivity|]. eexists. split; reflexivity.
Qed.

Lemma detect_changes_breaking_verdict_false_witness :
  detect_changes true users_get users_get_post
  = Ok (Some (mkChanges [] [] [("paths", ["/users"]); ("operations", ["POST /users"])]))
  /\ breaking_verdict (report_json (mkChanges [] [] [("paths", ["/users"]); ("operations", ["POST /users"])]))
     = false.
Proof.
  split; [reflexivity|].
  refine (proj1 (detect_changes_breaking_verdict_false true users_get users_get_post
                   (mkChanges [] [] [("paths", ["/users"]); ("operations", ["POST /users"])])
                   "2024-01-01T00:00:00" "spec.json" "n1" _ _)).
  - reflexivity.
  - right. left. discriminate.
Defined.

(** C2, on the code: no report of [detect_changes] ever has a
    [required_parameters] category, in [added] or in [removed]. *)
Theorem required_parameters_never_reported (gp : bool) (cur prev : json) (r : changes) :
  detect_changes gp cur prev = Ok (Some r) ->
  assoc "required_parameters" (added r) = None /\ assoc "required_parameters" (removed r) = None.
Proof.
  intros H. destruct (detect_changes_cases gp cur prev r H) as [_ [[_ [p [s' ->]]]|[_ Hc]]].
  - split; reflexivity.
  - destruct (categorize_agree_empty "required_parameters" _ prev cur r
                eq_refl eq_refl eq_refl eq_refl eq_refl eq_refl eq_refl eq_refl Hc)
      as [Ha [_ Hr]].
    split; [rewrite <- Ha | rewrite <- Hr]; reflexivity.
Qed.

Lemma required_parameters_never_reported_witness :
  detect_changes true (users_param true) (users_param false)
  = Ok (Some (mkChanges [] [("paths", ["/users"])] []))
  /\ assoc "required_parameters" (added (mkChanges [] [("paths", ["/users"])] [])) = None.
Proof.
  split; [reflexivity|].
  apply (required_parameters_never_reported true (users_param true) (users_param false)).
  reflexivity.
Defined.

(** C3, on the code: a method added to the existing [/users] is reported in
    [changed["operations"]] but also puts [/users] in [added["paths"]]; a new
    path [/products] is reported in [added["paths"]] with no
    [added["operations"]]. *)
Theorem operation_and_path_addition_reports :
  (forall gp, detect_changes gp users_get_post users_get
              = Ok (Some (mkChanges [("paths", ["/users"])] [("operations", ["POST /users"])] [])))
  /\ (forall gp, detect_changes gp users_products users_get
                 = Ok (Some (mkChanges [("paths", ["/products"])] [] []))).
Proof. split; intros []; reflexivity. Qed.

(** C5, on the code: two field changes under [GET /users] list [/users]
    twice in [changed["paths"]]. *)
Theorem duplicate_changed_paths :
  forall gp, detect_changes gp (users_doc "b" "y") (users_doc "a" "x")
             = Ok (Some (mkChanges [] [("paths", ["/users"; "/users"])] [])).
Proof. intros []; reflexivity. Qed.

Lemma ops_added_loop_processed (items : list string) (prev : json)
    (acc out : list string * list string * list string) :
  ops_added_loop items prev acc = Ok out ->
  (forall x, In x (snd acc) -> In x (snd out))
  /\ (forall item p m, In item items -> op_info item = Some (p, m) -> In p (snd out)).
Proof.
  revert acc; induction items as [|item rest IH]; intros acc H; simpl in H.
  - injection H as <-. split; [auto | intros ? ? ? []].
  - destruct (op_info item) as [[p m]|] eqn:Ei.
    + destruct acc as [[ao co] pp].
      destruct (get prev "paths" (JObj [])) as [pv|e]; simpl in H; [|discriminate].
      destruct (py_in_str p pv) as [b|e]; simpl in H; [|discriminate].
      destruct (IH _ H) as [Hmono Hall].
      assert (Hp : forall x, In x (pp ++ [p]) -> In x (snd out)).
      { intros x Hx. apply Hmono. destruct b; exact Hx. }
      split.
      * intros x Hx. apply Hp, in_or_app. now left.
      * intros it p' m' [<-|Hin] Hop.
        -- rewrite Ei in Hop. injection Hop as <- <-. apply Hp, in_or_app. right. now left.
        -- exact (Hall it p' m' Hin Hop).
    + destruct (IH _ H) as [Hmono Hall]. split; [exact Hmono|].
      intros it p' m' [<-|Hin] Hop; [congruence | exact (Hall it p' m' Hin Hop)].
Qed.

Lemma ops_added_loop_none (items : list string) (prev : json)
    (acc : list string * list string * list string) :
  (forall item, In item items -> op_info item = None) -> ops_added_loop items prev acc = Ok acc.
Proof.
  revert acc; induction items as [|item rest IH]; intros acc H; simpl; [reflexivity|].
  rewrite (H item (or_introl eq_refl)). apply IH. intros it Hin. apply H. now right.
Qed.

Lemma ops_changed_loop_covers (keys processed co : list string) :
  (forall x, In x co -> In x (ops_changed_loop keys processed co))
  /\ (forall key p m, In key keys -> op_info key = Some (p, m) -> str_in p processed = true ->
        In (op_name m p) (ops_changed_loop keys processed co)).
Proof.
  revert co; induction keys as [|key rest IH]; intros co; simpl.
  - split; [auto | intros ? ? ? []].
  - destruct (op_info key) as [[p m]|] eqn:Ei.
    + set (co' := if negb (str_in (op_name m p) co) && str_in p processed
                  then co ++ [op_name m p] else co).
      destruct (IH co') as [Hmono Hall].
      assert (Hsub : forall x, In x co -> In x co').
      { intros x Hx. unfold co'. destruct (_ && _); [apply in_or_app; now left | exact Hx]. }
      split; [auto|].
      intros k p' m' [<-|Hin] Hop Hpp; [|exact (Hall k p' m' Hin Hop Hpp)].
      rewrite Ei in Hop. injection Hop as <- <-. apply Hmono.
      unfold co'. rewrite Hpp, andb_true_r.
      destruct (str_in (op_name m p) co) eqn:Eco; simpl.
      * unfold str_in in Eco. apply existsb_exists in Eco as [y [Hy Hyeq]].
        apply String.eqb_eq in Hyeq. now subst y.
      * apply in_or_app. right. now left.
    + destruct (IH co) as [Hmono Hall]. split; [exact Hmono|].
      intros k p' m' [<-|Hin] Hop Hpp; [congruence | exact (Hall k p' m' Hin Hop Hpp)].
Qed.

Lemma ops_changed_loop_unprocessed (keys co : list string) : ops_changed_loop keys [] co = co.
Proof.
  revert co; induction keys as [|key rest IH]; intros co; simpl; [reflexivity|].
  destruct (op_info key) as [[p m]|]; simpl; [rewrite andb_false_r|]; apply IH.
Qed.

(** [_categorize_changes] records a value change under an operation
    [(p, m)] in [changed["operations"]] when the diff also adds something
    at an operation under [p], and writes no [changed["operations"]] when
    the diff adds nothing at any operation. *)
Lemma categorize_operation_gate (d : DeepDiff.diff) (prev cur : json) (c : changes) :
  _categorize_changes d prev cur = Ok c ->
  (forall key old new p m,
     In (key, old, new) (values_changed d) -> op_info key = Some (p, m) ->
     (exists item m', In item (dictionary_item_added d) /\ op_info item = Some (p, m')) ->
     exists ops, assoc "operations" (changed c) = Some ops /\ In (op_name m p) ops)
  /\ ((forall item, In item (dictionary_item_added d) -> op_info item = None) ->
      assoc "operations" (changed c) = None).
Proof.
  intros H. unfold _categorize_changes in H.
  set (c0 := _process_path_changes d (mkChanges [] [] [])) in H.
  destruct (_process_operation_changes d c0 prev) as [c1|e] eqn:E; simpl in H; [|discriminate].
  injection H as <-.
  destruct (agree_after_operations "operations" d c1 cur eq_refl eq_refl eq_refl eq_refl eq_refl
              eq_refl) as [_ [Hafter _]].
  rewrite <- Hafter.
  unfold _process_operation_changes in E.
  destruct (ops_added_loop (dictionary_item_added d) prev ([], [], [])) as [[[ao co] pp]|e]
    eqn:Eloop; simpl in E; [|discriminate].
  injection E as <-. split.
  - intros key old new p m Hin Hop [item [m' [Hitem Hitem_op]]].
    destruct (ops_added_loop_processed _ _ _ _ Eloop) as [_ Hall].
    pose proof (Hall item p m' Hitem Hitem_op) as Hpp. simpl in Hpp.
    destruct (ops_changed_loop_covers (vc_keys d) pp co) as [_ Hcov].
    assert (Hk : In key (vc_keys d)).
    { unfold vc_keys. apply in_map_iff. exists (key, old, new). auto. }
    assert (Hs : str_in p pp = true).
    { apply existsb_exists. exists p. split; [exact Hpp | apply String.eqb_refl]. }
    pose proof (Hcov key p m Hk Hop Hs) as Hin'.
    destruct (ops_changed_loop (vc_keys d) pp co) as [|o os] eqn:Eco; [destruct Hin'|].
    exists (o :: os). split; [|exact Hin'].
    unfold set_if, set_changed. cbn [changed]. rewrite ReportKeys.assoc_setitem. reflexivity.
  - intros Hnone.
    assert (Hc0 : assoc "operations" (changed c0) = None).
    { destruct (agree_path_changes "operations" d (mkChanges [] [] []) eq_refl) as [_ [Hp _]].
      unfold c0. rewrite <- Hp. reflexivity. }
    clearbody c0.
    rewrite (ops_added_loop_none _ prev ([], [], []) Hnone) in Eloop.
    injection Eloop as <- <- <-. rewrite ops_changed_loop_unprocessed. simpl.
    destruct (flat_map _ (dictionary_item_removed d)); exact Hc0.
Qed.

(** C4, on the code: the [values_changed] loop of
    [_process_operation_changes] only records an operation whose path is
    in [processed_paths], the paths of the operation-level additions.  So
    a value change under an operation [(p, m)] gives ["{M} p"] in
    [changed["operations"]] when the diff also adds something at an
    operation under [p]; and when the diff adds nothing at any operation
    the report has no [changed["operations"]] at all, whatever value
    changes it has. *)
Theorem value_change_operation_gate (gp : bool) (cur prev : json) (r : changes) :
  truthy prev = true -> detect_changes gp cur prev = Ok (Some r) ->
  (forall key old new p m,
     In (key, old, new) (values_changed (DeepDiff gp prev cur)) -> op_info key = Some (p, m) ->
     (exists item m', In item (dictionary_item_added (DeepDiff gp prev cur)) /\ op_info item = Some (p, m')) ->
     exists ops, assoc "operations" (changed r) = Some ops /\ In (op_name m p) ops)
  /\ ((forall item, In item (dictionary_item_added (DeepDiff gp prev cur)) -> op_info item = None) ->
      assoc "operations" (changed r) = None).
Proof.
  intros Hp H. destruct (detect_changes_cases gp cur prev r H) as [_ [[Hf _]|[_ Hc]]].
  - rewrite Hp in Hf. discriminate.
  - exact (categorize_operation_gate _ prev cur r Hc).
Qed.

Lemma value_change_operation_gate_witness :
  detect_changes true (users_doc "b" "x") (users_doc "a" "x")
  = Ok (Some (mkChanges [] [("paths", ["/users"])] []))
  /\ In ("root['paths']['/users']['get']['summary']", JStr "a", JStr "b")
        (values_changed (DeepDiff true (users_doc "a" "x") (users_doc "b" "x")))
  /\ op_info "root['paths']['/users']['get']['summary']" = Some ("/users", "get")
  /\ assoc "operations" (changed (mkChanges [] [("paths", ["/users"])] [])) = None.
Proof.
  split; [reflexivity|]. split; [left; reflexivity|]. split; [reflexivity|].
  apply (proj2 (value_change_operation_gate true (users_doc "b" "x") (users_doc "a" "x")
                  (mkChanges [] [("paths", ["/users"])] []) eq_refl eq_refl)).
  intros item Hin. vm_compute in Hin. destruct Hin.
Defined.

End Claims.

(** ** Further properties of the code *)
Module Extras.
Import PyStr Json DeepDiff Detector Monitor Notifier Scenarios Predicates PyStrFacts LocationFacts
  NotifierFacts ReportKeys.
Local Open Scope string_scope.

(** X1: [_extract_operation_info] reads the path and the method back from
    every DeepDiff location at or below an operation
    [root['paths'][p][m]], when [p] starts with [/] and holds no quote and
    [m] is one of [http_methods]. *)
Theorem extract_operation_info_location (p m rest : string) :
  startswith p "/" = true -> contains "'" p = false -> In m http_methods ->
  _extract_operation_info (at_key (at_key (at_key "root" "paths") p) m ++ rest) = (Some p, Some m).
Proof.
  intros Hs Hq Hm. destruct (startswith_slash p Hs) as [p' ->].
  assert (Hq' : contains "'" p' = false) by exact (proj2 (contains_char_cons _ _ _ Hq)).
  unfold _extract_operation_info. rewrite (operation_location_split p' m rest Hq' Hm).
  cbn [length nth Nat.leb].
  assert (H1 : contains "['/" ("['/" ++ p') = true).
  { simpl. now rewrite prefix_empty. }
  assert (H2 : contains "['" ("['" ++ m) = true).
  { simpl. now rewrite prefix_empty. }
  rewrite H1, H2, after_open_slash, after_open_method by assumption. reflexivity.
Qed.

Lemma extract_operation_info_location_witness :
  _extract_operation_info
    (at_key (at_key (at_key "root" "paths") "/users/{id}") "delete" ++ "['responses']['204']")
  = (Some "/users/{id}", Some "delete").
Proof. apply extract_operation_info_location; [reflexivity | reflexivity | simpl; tauto]. Defined.

(** X2: [_extract_paths(..., 'paths')] maps every location at or below
    [root['paths'][p]] to [p] (one entry per location, in order), when [p]
    holds none of the characters [' [ ]]. *)
Theorem extract_paths_locations (ps : list (string * string)) :
  Forall (fun pr => contains "'" (fst pr) = false /\ contains "[" (fst pr) = false
                    /\ contains "]" (fst pr) = false) ps ->
  _extract_paths (map (fun pr => at_key (at_key "root" "paths") (fst pr) ++ snd pr) ps) "paths"
  = map fst ps.
Proof.
  induction ps as [|[p rest] ps IH]; intros H; [reflexivity|].
  inversion H as [|? ? [Hq [Hl Hb]] Hr]; subst.
  cbn [map fst snd]. rewrite extract_paths_cons, (extract_paths_location p rest Hq Hl Hb), (IH Hr).
  reflexivity.
Qed.

Lemma extract_paths_locations_witness :
  _extract_paths (map (fun pr => at_key (at_key "root" "paths") (fst pr) ++ snd pr)
                      [("/users", ""); ("/users", "['get']['summary']"); ("/orders/{id}", "['post']")])
                 "paths"
  = ["/users"; "/users"; "/orders/{id}"].
Proof.
  apply (extract_paths_locations [("/users", ""); ("/users", "['get']['summary']"); ("/orders/{id}", "['post']")]).
  repeat constructor.
Defined.

(** X3: [_extract_components(..., 'components.t')] maps every location at
    or below [root['components'][t][n]] to the component name [n], when
    [t] holds no dot and no quote, [n] holds no quote, and the rest of the
    location does not repeat the prefix [root['components'][t]]. *)
Theorem extract_components_locations (t : string) (ns : list (string * string)) :
  contains "." t = false -> contains "'" t = false ->
  Forall (fun nr => contains "'" (fst nr) = false
                    /\ contains (at_key (at_key "root" "components") t) (key_repr (fst nr) ++ snd nr)
                       = false) ns ->
  _extract_components
    (map (fun nr => at_key (at_key (at_key "root" "components") t) (fst nr) ++ snd nr) ns)
    ("components." ++ t)
  = map fst ns.
Proof.
  intros Hd Ht. induction ns as [|[n rest] ns IH]; intros H; [reflexivity|].
  inversion H as [|? ? [Hn Hr] Hrs]; subst.
  cbn [map fst snd]. rewrite extract_components_cons, (extract_components_location t n rest Hd Ht Hn Hr).
  now rewrite (IH Hrs).
Qed.

Lemma extract_components_locations_witness :
  _extract_components
    (map (fun nr => at_key (at_key (at_key "root" "components") "schemas") (fst nr) ++ snd nr)
         [("User", ""); ("Order", "['properties']['id']['type']")])
    ("components." ++ "schemas")
  = ["User"; "Order"].
Proof.
  apply (extract_components_locations "schemas" [("User", ""); ("Order", "['properties']['id']['type']")]);
    [reflexivity | reflexivity | repeat constructor].
Defined.

(** X4: the operation locator [_extract_operation_from_key] returns
    [None] for every key, and so do [_extract_parameter_info] and
    [_check_if_required_parameter], which are built on it. *)
Theorem operation_locator_finds_nothing (key_str : string) :
  _extract_operation_from_key key_str = None
  /\ _extract_parameter_info key_str = None
  /\ (forall spec, _check_if_required_parameter key_str spec = None).
Proof.
  split; [apply LocatorFacts.extract_operation_from_key_none|].
  split; [apply LocatorFacts.extract_parameter_info_none|].
  intros spec. apply LocatorFacts.check_if_required_parameter_none.
Qed.

(** X5: [_is_operation_change] holds for every location at or below an
    operation [root['paths'][p][m]] with [m] in [http_methods]. *)
Theorem is_operation_change_location (p m rest : string) :
  contains "'" p = false -> In m http_methods ->
  _is_operation_change (at_key (at_key (at_key "root" "paths") p) m ++ rest) = true.
Proof.
  intros Hp Hm. unfold _is_operation_change.
  assert (Hk : key_repr m = ("['" ++ m ++ "']")%string).
  { simpl in Hm. repeat (destruct Hm as [<-|Hm]; [reflexivity|]). destruct Hm. }
  assert (H1 : contains "root['paths']" (at_key (at_key (at_key "root" "paths") p) m ++ rest) = true).
  { apply contains_spec. exists "", ((key_repr p ++ key_repr m) ++ rest)%string.
    unfold at_key. now rewrite !sapp_assoc. }
  rewrite H1. simpl negb. cbv iota.
  apply existsb_exists. exists m. split; [exact Hm|].
  apply contains_spec. exists (at_key (at_key "root" "paths") p), rest.
  unfold at_key at 1. rewrite Hk. now rewrite !sapp_assoc.
Qed.

Lemma is_operation_change_location_witness :
  _is_operation_change (at_key (at_key (at_key "root" "paths") "/users") "patch" ++ "['parameters'][0]")
  = true.
Proof. apply is_operation_change_location; [reflexivity | simpl; tauto]. Defined.

(** X6: when [_extract_spec_info] succeeds on a non-empty spec, its
    [operations_count] is the number of operations [_get_all_operations]
    lists for the same spec, and the values of [operations_by_method] add
    up to that same number. *)
Theorem spec_info_operation_counts (spec info : json) :
  truthy spec = true -> _extract_spec_info spec = Ok info ->
  exists ops by_m,
    _get_all_operations spec = Ok ops
    /\ get info "operations_count" JNull = Ok (JNum (Z.of_nat (length ops)))
    /\ get info "operations_by_method" JNull = Ok (JObj (map (fun kv => (fst kv, JNum (snd kv))) by_m))
    /\ fold_right Z.add 0%Z (map snd by_m) = Z.of_nat (length ops).
Proof.
  intros Ht H. unfold _extract_spec_info in H. rewrite Ht in H. cbn [negb] in H.
  res_inv H. injection H as <-.
  match goal with E : count_paths _ 0%Z [] = Ok ?c |- _ => destruct c as [n b]; 
    destruct (count_paths_ok _ _ _ _ _ E) as [ops [Ea [En Eb]]] end.
  exists ops, b. unfold _get_all_operations.
  match goal with E : get spec "paths" (JObj []) = Ok _ |- _ => rewrite E end. cbn [bind].
  match goal with E : dict_items _ = Ok _ |- _ => rewrite E end. cbn [bind]. rewrite Ea.
  split; [reflexivity|]. cbn [fst snd] in *. rewrite En.
  split; [reflexivity|]. split; [reflexivity|]. change (zsum b = Z.of_nat (length ops)). rewrite Eb. reflexivity.
Qed.

Lemma spec_info_operation_counts_witness :
  exists info, _extract_spec_info Scenarios.users_get_post = Ok info /\
  exists ops by_m,
    _get_all_operations Scenarios.users_get_post = Ok ops
    /\ get info "operations_count" JNull = Ok (JNum (Z.of_nat (length ops)))
    /\ get info "operations_by_method" JNull = Ok (JObj (map (fun kv => (fst kv, JNum (snd kv))) by_m))
    /\ fold_right Z.add 0%Z (map snd by_m) = Z.of_nat (length ops).
Proof.
  eexists. split.
  - vm_compute. reflexivity.
  - apply spec_info_operation_counts; [reflexivity | vm_compute; reflexivity].
Defined.

(** X7: the payload built from a report of [detect_changes] is the same
    for every report: the report has none of the keys [_prepare_payload]
    reads, so summary, breaking flag, breaking changes, changelog and spec
    all take their defaults. *)
Theorem prepare_payload_of_report (timestamp spec_source notification_id : string) (c : changes) :
  _prepare_payload timestamp spec_source notification_id (report_json c)
  = Ok (JObj [("event_type", JStr "api_spec_change"); ("timestamp", JStr timestamp);
              ("source", JStr "github_api_spec_monitor");
              ("summary", JStr "API specification changes detected");
              ("has_breaking_changes", JBool false);
              ("breaking_changes", JObj [("count", JNum 0); ("changes", JList [])]);
              ("changelog", JObj [("text", JStr ""); ("lines", JList [])]);
              ("current_spec", JObj [("content", JObj []); ("info", JObj [])]);
              ("metadata", JObj [("spec_source", JStr spec_source);
                                 ("monitor_version", JStr "2.0.0");
                                 ("diff_tool", JStr "oasdiff");
                                 ("notification_id", JStr notification_id)])]).
Proof. reflexivity. Qed.

(** X8: a string changelog gives one entry per line that is not blank
    once stripped, and each entry is a heading, an item or a text entry. *)
Theorem parse_changelog_lines_shape (s : string) :
  exists es, _parse_changelog_lines (JStr s) = Ok es
  /\ length es = length (filter (fun l => PyStr.truthy (strip_ws l)) (split s newline))
  /\ Forall (fun e => exists ty t, e = changelog_entry ty t /\ In ty ["heading"; "item"; "text"]) es.
Proof.
  unfold _parse_changelog_lines. destruct s as [|c s'].
  - exists []. split; [reflexivity|]. split; [reflexivity | constructor].
  - cbn [truthy PyStr.truthy negb]. eexists. split; [reflexivity|].
    induction (split (String c s') newline) as [|l ls [IHl IHf]]; [split; [reflexivity | constructor]|].
    cbn [flat_map filter]. destruct (parse_line_shape l) as [Hl Hf]. split.
    + rewrite length_app, Hl, IHl. destruct (PyStr.truthy (strip_ws l)); reflexivity.
    + apply Forall_app; split; assumption.
Qed.

(** X9: storing a non-empty document [a] and then a document [b] leaves
    [b] as the current snapshot and [a] as the previous one. *)
Theorem update_stored_specs_twice (a b : json) (st : store) :
  truthy a = true -> b <> JNull ->
  update_stored_specs b (snd (update_stored_specs a st)) = (true, mkStore (Some b) (Some a)).
Proof.
  intros Ha Hb. destruct a; try discriminate Ha;
    (destruct b; [contradiction | ..]; cbn [update_stored_specs snd current_file previous_file
       load_json_from_file]; rewrite Ha; reflexivity).
Qed.

Lemma update_stored_specs_twice_witness :
  truthy Scenarios.users_get = true /\ Scenarios.users_get_post <> JNull /\
  update_stored_specs Scenarios.users_get_post (snd (update_stored_specs Scenarios.users_get (mkStore None None)))
  = (true, mkStore (Some Scenarios.users_get_post) (Some Scenarios.users_get)).
Proof.
  split; [reflexivity|]. split; [discriminate|].
  apply update_stored_specs_twice; [reflexivity | discriminate].
Defined.

(** X10: when no current snapshot is stored, the initial run of [start]
    followed by a check of the same well-formed document writes nothing
    and notifies no one. *)
Theorem start_then_check_no_change (gp : bool) (notify : json -> delivery) (fetched : json) (st : store) :
  wf fetched -> truthy (fst (get_stored_specs st)) = false ->
  check_for_changes gp notify fetched (start_initial fetched st) = Ok (start_initial fetched st).
Proof.
  intros Hwf Hs. unfold start_initial. destruct (get_stored_specs st) as [cur prev] eqn:E.
  cbn [fst] in Hs. rewrite Hs. cbn [negb].
  destruct (truthy fetched) eqn:Hf.
  - unfold check_for_changes. rewrite Hf. cbn [negb].
    assert (Hc : fst (get_stored_specs (snd (update_stored_specs fetched st))) = fetched).
    { destruct fetched; try discriminate Hf; reflexivity. }
    destruct (get_stored_specs (snd (update_stored_specs fetched st))) as [c' p'].
    cbn [fst] in Hc. subst c'. rewrite (MonitorFacts.detect_changes_self gp fetched Hwf). reflexivity.
  - unfold check_for_changes. rewrite Hf. reflexivity.
Qed.

Lemma start_then_check_no_change_witness :
  wf Scenarios.users_get_post /\ truthy (fst (get_stored_specs (mkStore None None))) = false /\
  check_for_changes true (fun _ => Delivered) Scenarios.users_get_post
    (start_initial Scenarios.users_get_post (mkStore None None))
  = Ok (start_initial Scenarios.users_get_post (mkStore None None)).
Proof.
  assert (Hwf : wf Scenarios.users_get_post).
  { simpl. repeat split; repeat constructor; simpl; intuition discriminate. }
  split; [exact Hwf|]. split; [reflexivity|].
  apply (start_then_check_no_change true _ _ _ Hwf). reflexivity.
Defined.

(** X11: a report of [detect_changes] never has a [request_formats],
    [response_formats] or [operation_security] entry, in any of its three
    dicts. *)
Theorem never_reported_categories (gp : bool) (cur prev : json) (r : changes) (k : string) :
  detect_changes gp cur prev = Ok (Some r) ->
  In k ["request_formats"; "response_formats"; "operation_security"] ->
  assoc k (added r) = None /\ assoc k (changed r) = None /\ assoc k (removed r) = None.
Proof.
  intros H Hk. destruct (Claims.detect_changes_cases gp cur prev r H) as [_ [[_ [p [s ->]]]|[_ Hc]]].
  - simpl in Hk. repeat (destruct Hk as [<-|Hk]; [repeat split; reflexivity|]). destruct Hk.
  - assert (A : agree_on k (mkChanges [] [] []) r).
    { unfold _categorize_changes in Hc.
      destruct (_process_operation_changes _ _ prev) as [c1|e] eqn:E; cbn [bind] in Hc; [|discriminate].
      injection Hc as <-.
      assert (Hp : String.eqb k "paths" = false) by
        (simpl in Hk; repeat (destruct Hk as [<-|Hk]; [reflexivity|]); destruct Hk).
      assert (Ho : String.eqb k "operations" = false) by
        (simpl in Hk; repeat (destruct Hk as [<-|Hk]; [reflexivity|]); destruct Hk).
      assert (Ht : forallb (fun t => negb (String.eqb k t)) components_types = true) by
        (simpl in Hk; repeat (destruct Hk as [<-|Hk]; [reflexivity|]); destruct Hk).
      eapply agree_trans; [apply (agree_path_changes k (DeepDiff gp prev cur) _ Hp)|].
      eapply agree_trans; [apply (agree_operation_changes k _ _ _ prev Ho E)|].
      rewrite LocatorFacts.process_parameter_changes_id, CategoryFacts.request_response_changes_id.
      eapply agree_trans; [|apply agree_component_changes; exact Ht].
      simpl in Hk. destruct Hk as [<-|[<-|[<-|[]]]];
        [apply agree_security_changes; reflexivity | apply agree_security_changes; reflexivity
        | apply CategoryFacts.agree_security_operation]. }
    destruct A as [A1 [A2 A3]]. rewrite <- A1, <- A2, <- A3. repeat split.
Qed.

Lemma never_reported_categories_witness :
  exists r, detect_changes true (Scenarios.users_body "application/xml") (Scenarios.users_body "application/json") = Ok (Some r)
  /\ In "request_formats" ["request_formats"; "response_formats"; "operation_security"]
  /\ assoc "request_formats" (added r) = None /\ assoc "request_formats" (changed r) = None
  /\ assoc "request_formats" (removed r) = None.
Proof.
  eexists. split; [vm_compute; reflexivity|]. split; [simpl; tauto|].
  apply (never_reported_categories true (Scenarios.users_body "application/xml") (Scenarios.users_body "application/json"));
    [vm_compute; reflexivity | simpl; tauto].
Defined.

End Extras.
